(** * map-gpt-embeddings: the GPTEmbeddingMapper of [map_gpt_embeddings/mappers.py]

    A shallow embedding of the mapper's five methods ([map_schema_message],
    [_validate_config], [split_record], [get_embeddings] and
    [map_record_message]) and the properties the specification states about
    them.

    Python dicts are [gmap string json]; a method is a state-passing function
    over [State] (the mapper's configuration, the process environment and the
    log of outbound embedding requests) that returns a value or raises; a
    generator method is run to its end and described by what it yielded, in
    order, and how it finished. *)

From Stdlib Require Import ZArith Ascii String Floats.PrimFloat.
From stdpp Require Import gmap strings list fin_maps.

Open Scope string_scope.
Open Scope list_scope.
Set Warnings "-register-all,-clear-no-such-hyp".

(** ** JSON values *)

Inductive json : Type :=
  | JNull
  | JBool (b : bool)
  | JInt (z : Z)
  | JFloat (f : PrimFloat.float)
  | JStr (s : string)
  | JList (l : list json)
  | JObj (m : gmap string json).

(** Python's truth value of a JSON value ([not x] is its negation). *)
Definition truthy (v : json) : bool :=
  match v with
  | JNull => false
  | JBool b => b
  | JInt z => negb (z =? 0)%Z
  | JFloat f => negb (PrimFloat.eqb f 0%float)
  | JStr s => match s with EmptyString => false | String _ _ => true end
  | JList l => match l with [] => false | _ :: _ => true end
  | JObj m => match map_to_list m with [] => false | _ :: _ => true end
  end.

(** ** Exceptions and results *)

Inductive exn : Type :=
  | KeyError (key : string)
  | TypeError
  | AttributeError
  | IndexError
  (** [openai.error.RateLimitError]; [msg] is what [str(ex)] renders. *)
  | RateLimitError (msg : string)
  (** [singer_sdk.exceptions.ConfigValidationError] *)
  | ConfigValidationError (msg : string)
  (** [singer_sdk.exceptions.AbortedSyncFailedException] *)
  | AbortedSyncFailedException (msg : string)
  (** any other exception of a collaborator (transport errors, ...) *)
  | OtherError (name msg : string).

Inductive result (A : Type) : Type :=
  | Ok (a : A)
  | Raise (e : exn).
Arguments Ok {A} a.
Arguments Raise {A} e.

(** ** Strings *)

(** [s.replace(old, new)] for one-character [old] and [new]: the scan is
    character by character.  Strings are byte strings here; in UTF-8 the
    bytes of "\n", " ", "-" and "_" occur only as those characters, so the
    byte-wise replacement is the code-point-wise one. *)
Fixpoint replace (old new : ascii) (s : string) : string :=
  match s with
  | EmptyString => EmptyString
  | String c s' =>
      String (if Ascii.eqb c old then new else c) (replace old new s')
  end.

Definition upper_ascii (c : ascii) : ascii :=
  let n := nat_of_ascii c in
  if (97 <=? n)%nat && (n <=? 122)%nat then ascii_of_nat (n - 32) else c.

(** [s.upper()] on ASCII text. *)
Fixpoint upper (s : string) : string :=
  match s with
  | EmptyString => EmptyString
  | String c s' => String (upper_ascii c) (upper s')
  end.

Definition newline : ascii := ascii_of_nat 10.
Definition space : ascii := ascii_of_nat 32.

(** ** Subscripting *)

(** [v[k]] for a string key [k]: only a dict can be subscripted by a string. *)
Definition getitem (v : json) (k : string) : result json :=
  match v with
  | JObj m => match m !! k with Some x => Ok x | None => Raise (KeyError k) end
  | _ => Raise TypeError
  end.

(** [v[0]].  A dict decoded from JSON has string keys only, so the integer
    key is missing; a str gives its first character. *)
Definition getitem0 (v : json) : result json :=
  match v with
  | JList l => match l with x :: _ => Ok x | [] => Raise IndexError end
  | JStr s =>
      match s with
      | String c _ => Ok (JStr (String c EmptyString))
      | EmptyString => Raise IndexError
      end
  | JObj _ => Raise (KeyError "0")
  | _ => Raise TypeError
  end.

(** ** The mapper's state *)

(** The plugin configuration.  [config_jsonschema] declares the first three
    settings as strings, the two property names with defaults;
    [split_documents] and [splitter_config] are read but not declared, so
    they hold any JSON value when present.  [None] in [openai_api_key] is
    what [self.config.get("openai_api_key", None)] returns as [None]. *)
Record Config : Type := {
  document_text_property : string;
  document_metadata_property : string;
  openai_api_key : option string;
  split_documents : option json;
  splitter_config : option json;
}.

(** [openai.Embedding.create(input=[text], model=model, api_key=api_key)] *)
Record Request : Type := {
  input : list string;
  model : string;
  api_key : option string;
}.

Record State : Type := {
  config : Config;
  environ : gmap string string;
  (** the outbound embedding requests made so far, oldest first *)
  requests : list Request;
}.

Definition set_config (c : Config) (st : State) : State :=
  {| config := c; environ := environ st; requests := requests st |}.

Definition set_splitter_config (v : option json) (c : Config) : Config :=
  {| document_text_property := document_text_property c;
     document_metadata_property := document_metadata_property c;
     openai_api_key := openai_api_key c;
     split_documents := split_documents c;
     splitter_config := v |}.

(** ** Methods: state and exceptions *)

Definition M (A : Type) : Type := State → result A * State.

Definition ret {A} (a : A) : M A := λ st, (Ok a, st).
Definition raise {A} (e : exn) : M A := λ st, (Raise e, st).
Definition bind {A B} (m : M A) (k : A → M B) : M B :=
  λ st, match m st with
        | (Ok a, st') => k a st'
        | (Raise e, st') => (Raise e, st')
        end.
Definition of_result {A} (r : result A) : M A := λ st, (r, st).
Definition get_config : M Config := λ st, (Ok (config st), st).
Definition get_environ : M (gmap string string) := λ st, (Ok (environ st), st).
Definition put_config (c : Config) : M unit := λ st, (Ok tt, set_config c st).

#[global] Instance M_ret : MRet M := @ret.
#[global] Instance M_bind : MBind M := λ A B k m, bind m k.

(** ** Generator methods

    What a generator did when iterated to its end: the values it yielded, in
    order, and whether it then returned or raised. *)

Definition Gen (Y R : Type) : Type := State → (list Y * result R) * State.

Definition greturn {Y R} (r : R) : Gen Y R := λ st, (([], Ok r), st).
Definition yield {Y} (y : Y) : Gen Y unit := λ st, (([y], Ok tt), st).
Definition lift {Y A} (m : M A) : Gen Y A :=
  λ st, let '(r, st') := m st in (([], r), st').
Definition gbind {Y A B} (m : Gen Y A) (k : A → Gen Y B) : Gen Y B :=
  λ st, match m st with
        | ((ys, Ok a), st') =>
            let '((ys', r), st'') := k a st' in ((ys ++ ys', r), st'')
        | ((ys, Raise e), st') => ((ys, Raise e), st')
        end.

#[global] Instance Gen_ret {Y} : MRet (Gen Y) := @greturn Y.
#[global] Instance Gen_bind {Y} : MBind (Gen Y) := λ A B k m, gbind m k.

(** [for x in xs: body(x)] inside a generator. *)
Fixpoint for_each {X Y} (xs : list X) (body : X → Gen Y unit) : Gen Y unit :=
  match xs with
  | [] => greturn tt
  | x :: xs' => gbind (body x) (λ _, for_each xs' body)
  end.

(** [for x in g: body(x)] for a generator [g].  The generators consumed this
    way here ([split_record], the base class's [map_schema_message]) touch
    the state only before their first yield, so running [g] ahead of the
    bodies reaches the same states as the interleaved run.  An exception of a
    body leaves the loop at once and [g] is never resumed; otherwise the loop
    ends the way [g] ended. *)
Definition for_in {X Y R} (g : Gen X R) (body : X → Gen Y unit) : Gen Y R :=
  λ st, match g st with
        | ((xs, r), st') =>
            match for_each xs body st' with
            | ((ys, Ok _), st'') => ((ys, r), st'')
            | ((ys, Raise e), st'') => ((ys, Raise e), st'')
            end
        end.

(** Unfolds the monadic plumbing of a method down to its state function. *)
Ltac unfold_monad :=
  unfold mbind, mret, M_bind, M_ret, Gen_bind, Gen_ret, bind, ret, raise,
    gbind, greturn, lift, of_result, get_config, get_environ, put_config.

(** ** JSON-schema type helpers ([singer_sdk.typing], imported as [th]) *)

Module th.

Inductive JSONTypeHelper : Type :=
  | StringType
  | NumberType
  | IntegerType
  | ObjectType
  | ArrayType (wrapped_type : JSONTypeHelper).

Definition simple (type_name : string) : json :=
  JObj {[ "type" := JList [JStr type_name] ]}.

(** [.to_dict()]: a simple type is [{"type": [name]}], [ObjectType()] with no
    properties is [{"type": "object", "properties": {}}], an array is
    [{"type": "array", "items": <wrapped>}]. *)
Fixpoint to_dict (t : JSONTypeHelper) : json :=
  match t with
  | StringType => simple "string"
  | NumberType => simple "number"
  | IntegerType => simple "integer"
  | ObjectType => JObj (<["type" := JStr "object"]> {[ "properties" := JObj ∅ ]})
  | ArrayType w => JObj (<["type" := JStr "array"]> {[ "items" := to_dict w ]})
  end.

End th.

(** ** Messages *)

(** A SCHEMA message: the stream's JSON schema (its property mapping sits
    under ["properties"]) and the key-property list, which the Singer format
    lets be absent ([None]). *)
Record SchemaMessage : Type := {
  stream : string;
  schema : gmap string json;
  key_properties : option (list string);
  bookmark_properties : option (list string);
}.

(** Modelled from the spec: [BasicPassthroughMapper.map_schema_message]
    ([map_gpt_embeddings/sdk_fixes/mapper_base.py], not under src/), which
    [map_schema_message] iterates.  Spec 2 and 4.1: the incoming schema
    message is passed on once per input schema message; the incoming dict is
    taken as already read into a [SchemaMessage]. *)
Definition super_map_schema_message (message_dict : SchemaMessage)
  : Gen SchemaMessage unit :=
  yield message_dict.

(** Modelled from the spec: [RecordMessage.from_dict]
    ([map_gpt_embeddings/sdk_fixes/messages.py], not under src/).  Spec 6: the
    produced record message has the shape of the consumed one, so the message
    is the dict it was built from. *)
Definition RecordMessage_from_dict (data : gmap string json) : gmap string json :=
  data.

(** A chunk: langchain's [Document]. *)
Record Document : Type := {
  page_content : string;
  metadata : gmap string json;
}.

(** ** Test doubles for the collaborators

    Concrete stand-ins for the chunker, the remote service and the framework
    validation, on which the model is run at concrete inputs. *)

Fixpoint drop_string (n : nat) (s : string) : string :=
  match n, s with
  | S n', String _ s' => drop_string n' s'
  | _, _ => s
  end.

Fixpoint windows (fuel size : nat) (s : string) : list string :=
  match fuel with
  | O => []
  | S fuel' =>
      match s with
      | EmptyString => []
      | _ => substring 0 size s :: windows fuel' size (drop_string size s)
      end
  end.

(** A chunker that cuts the text into consecutive windows of [chunk_size]
    characters (none for the empty text) and gives each the metadata. *)
Definition window_splitter (kwargs : gmap string json) (text metadata : json)
  : result (list Document) :=
  match kwargs !! "chunk_size", text, metadata with
  | Some (JInt size), JStr s, JObj md =>
      if (0 <? size)%Z
      then Ok ((λ t, {| page_content := t; metadata := md |})
                 <$> windows (String.length s) (Z.to_nat size) s)
      else Raise (OtherError "ValueError" "chunk_size")
  | _, _, _ => Raise TypeError
  end.

(** A remote service that answers its n-th request with the n-th entry of a
    script. *)
Definition scripted (script : list (result json))
    (history : list Request) (req : Request) : result json :=
  match script !! List.length history with
  | Some r => r
  | None => Raise (OtherError "APIConnectionError" "no answer")
  end.

(** A well-formed response carrying one embedding vector. *)
Definition response (vector : list PrimFloat.float) : json :=
  JObj {[ "data" := JList [JObj {[ "embedding" := JList (JFloat <$> vector) ]}] ]}.

(** A framework validation that finds nothing. *)
Definition accept (cfg : Config) (raise_errors warnings_as_errors : bool)
  : result (list string * list string) :=
  Ok ([], []).

Definition demo_config (split : option json) (splitter : option json)
    (key : option string) : Config :=
  {| document_text_property := "page_content";
     document_metadata_property := "metadata";
     openai_api_key := key;
     split_documents := split;
     splitter_config := splitter |}.

Definition demo_state (cfg : Config) : State :=
  {| config := cfg; environ := ∅; requests := [] |}.

Definition demo_record (text : string) : gmap string json :=
  <["page_content" := JStr text]>
    (<["metadata" := JObj {[ "source" := JStr "doc1" ]}]> {[ "id" := JInt 7 ]}).

Definition demo_message (text : string) : gmap string json :=
  <["type" := JStr "RECORD"]>
    (<["stream" := JStr "docs"]> {[ "record" := JObj (demo_record text) ]}).

Definition demo_schema (properties : gmap string json) : SchemaMessage :=
  {| stream := "docs";
     schema := <["type" := JStr "object"]> {[ "properties" := JObj properties ]};
     key_properties := Some ["id"];
     bookmark_properties := None |}.

(** ** The mapper *)

Section GPTEmbeddingMapper.

(** The collaborators outside the repository. *)

(** [RecursiveCharacterTextSplitter] built from the keyword arguments, then
    [Document(page_content=..., metadata=...)], then
    [.split_documents([document])]: the chunker with its keyword arguments, on
    a text and a metadata value; it returns the segments or raises (unknown
    keyword, overlap larger than size, a text that is no string, ...). *)
Variable text_splitter :
  gmap string json → json → json → result (list Document).

(** [openai.Embedding.create]: the remote service's answer to a request,
    given the requests made before it: the response dict, or an exception
    ([RateLimitError] among them). *)
Variable Embedding_create : list Request → Request → result json.

(** [super()._validate_config(raise_errors, warnings_as_errors)]: the
    framework's validation of the configuration against [config_jsonschema];
    it returns (warnings, errors) or raises. *)
Variable super_validate_config :
  Config → bool → bool → result (list string * list string).

Definition name : string := "map-openai-embeddings".

(** *** map_schema_message *)

Definition map_schema_message (message_dict : SchemaMessage)
  : Gen SchemaMessage unit :=
  for_in (super_map_schema_message message_dict) (λ result,
    properties ← lift (of_result (getitem (JObj (schema result)) "properties"));
    match properties with
    | JObj properties =>
        (* Add an "embeddings" property to the schema *)
        let properties :=
          <["embeddings" := th.to_dict (th.ArrayType th.NumberType)]> properties in
        (* Add metadata property to the schema, if not already present *)
        cfg ← lift get_config;
        let metadata_property := document_metadata_property cfg in
        let properties :=
          match properties !! metadata_property with
          | None => <[metadata_property := th.to_dict th.ObjectType]> properties
          | Some _ => properties
          end in
        (* Add segment_number to the schema and key properties *)
        let properties :=
          <["segment_number" := th.to_dict th.IntegerType]> properties in
        match key_properties result with
        | Some keys =>
            (* [properties] is the dict inside [result.schema]: the writes
               above are writes to the message that is yielded *)
            yield {| stream := stream result;
                     schema := <["properties" := JObj properties]> (schema result);
                     key_properties := Some (keys ++ ["segment_number"]);
                     bookmark_properties := bookmark_properties result |}
        | None => lift (raise AttributeError)
        end
    | _ => lift (raise TypeError)
    end).

(** *** _validate_config *)

Definition credential_message : string :=
  "Must set at least one of the following: `openai_api_key` setting, "
  +:+ "`" +:+ replace "-" "_" (upper name) +:+ "_OPEN_API_KEY` env var, or "
  +:+ " `OPENAI_API_KEY` env var.".

(** The method has no [return]: when it does not raise it returns Python's
    [None], here [None]; [Some] would be a (warnings, errors) tuple. *)
Definition _validate_config (raise_errors warnings_as_errors : bool)
  : M (option (list string * list string)) :=
  cfg ← get_config;
  _ ← of_result (super_validate_config cfg raise_errors warnings_as_errors);
  env ← get_environ;
  if raise_errors
     && bool_decide (openai_api_key cfg = None)
     && bool_decide (env !! "OPENAI_API_KEY" = None)
  then raise (ConfigValidationError credential_message)
  else mret None.

(** *** split_record *)

(** What [self.config.get("splitter_config", {})] evaluates to: the dict held
    in the configuration itself (the same object, so a write through it is a
    write to the configuration), or the fresh default dict. *)
Inductive dict_ref : Type :=
  | InConfig
  | Fresh (d : gmap string json).

(** A [splitter_config] that is no dict makes the lines that follow raise
    TypeError before anything is written or yielded: [in] on a number, bool
    or null; the item assignment on a str or list; the [**] unpacking when a
    str or list happens to contain both names. *)
Definition config_get_splitter_config : M dict_ref :=
  cfg ← get_config;
  match splitter_config cfg with
  | None => mret (Fresh ∅)
  | Some (JObj _) => mret InConfig
  | Some _ => raise TypeError
  end.

Definition deref (r : dict_ref) : M (gmap string json) :=
  match r with
  | Fresh d => mret d
  | InConfig =>
      cfg ← get_config;
      match splitter_config cfg with
      | Some (JObj d) => mret d
      | _ => raise TypeError
      end
  end.

(** [r[k] = v] *)
Definition setitem (r : dict_ref) (k : string) (v : json) : M dict_ref :=
  match r with
  | Fresh d => mret (Fresh (<[k := v]> d))
  | InConfig =>
      d ← deref InConfig;
      cfg ← get_config;
      _ ← put_config (set_splitter_config (Some (JObj (<[k := v]> d))) cfg);
      mret InConfig
  end.

(** [if k not in r: r[k] = v] *)
Definition set_if_missing (r : dict_ref) (k : string) (v : json) : M dict_ref :=
  d ← deref r;
  match d !! k with
  | Some _ => mret r
  | None => setitem r k v
  end.

(** Lines 100-115: everything before the [enumerate] loop.  [None] is the
    [return record] of a disabled split, [Some] the chunker's segments. *)
Definition split_record_segments (record : gmap string json)
  : M (option (list Document)) :=
  cfg ← get_config;
  raw_document_text ←
    of_result (getitem (JObj record) (document_text_property cfg));
  let metadata_dict :=
    default (JObj ∅) (record !! document_metadata_property cfg) in
  if negb (truthy (default (JBool true) (split_documents cfg)))
  then mret None
  else
    splitter_config ← config_get_splitter_config;
    splitter_config ← set_if_missing splitter_config "chunk_size" (JInt 1000);
    splitter_config ← set_if_missing splitter_config "chunk_overlap" (JInt 200);
    kwargs ← deref splitter_config;
    document_segments ←
      of_result (text_splitter kwargs raw_document_text metadata_dict);
    mret (Some document_segments).

(** The body of the [enumerate] loop, lines 126-129. *)
Definition new_record (cfg : Config) (record : gmap string json)
    (i : nat) (doc_segment : Document) : gmap string json :=
  <["segment_number" := JInt (Z.of_nat i)]>
    (<[document_metadata_property cfg := JObj (metadata doc_segment)]>
       (<[document_text_property cfg := JStr (page_content doc_segment)]>
          record)).

(** [split_record] is a generator function (it contains [yield]), so its
    [return record] ends the iteration: the record becomes the generator's
    return value, not an item.  The result is [Some record] for that return
    and [None] when the loop ran to its end. *)
Definition split_record (record : gmap string json)
  : Gen (gmap string json) (option (gmap string json)) :=
  segments ← lift (split_record_segments record);
  match segments with
  | None => greturn (Some record)
  | Some document_segments =>
      cfg ← lift get_config;
      _ ← for_each (imap (new_record cfg record) document_segments) yield;
      greturn None
  end.

(** *** get_embeddings *)

Definition call_Embedding_create (req : Request) : M json :=
  λ st, (Embedding_create (requests st) req,
         {| config := config st;
            environ := environ st;
            requests := requests st ++ [req] |}).

(** [response_dict["data"][0]["embedding"]] *)
Definition embedding_of_response (response_dict : json) : result json :=
  match getitem response_dict "data" with
  | Ok data =>
      match getitem0 data with
      | Ok first => getitem first "embedding"
      | Raise e => Raise e
      end
  | Raise e => Raise e
  end.

(** A [text] that is no str has no [replace]: AttributeError. *)
Definition get_embeddings (text : json) (api_key : option string)
    (model : string) : M json :=
  match text with
  | JStr text =>
      let text := replace newline space text in
      response_dict ←
        call_Embedding_create
          {| input := [text]; model := model; api_key := api_key |};
      of_result (embedding_of_response response_dict)
  | _ => raise AttributeError
  end.

(** *** map_record_message *)

(** [try: m except openai.error.RateLimitError as ex: handler(str(ex))] *)
Definition except_RateLimitError {A} (m : M A) (handler : string → M A) : M A :=
  λ st, match m st with
        | (Raise (RateLimitError msg), st') => handler msg st'
        | other => other
        end.

Definition abort_prefix : string :=
  "Sync aborted due to OpenAI rate limit reached. Error message:"
  +:+ String newline EmptyString.

(** The [try] statement of lines 178-188 on one split record. *)
Definition embed (split_rec : gmap string json) : M json :=
  cfg ← get_config;
  except_RateLimitError
    (text ← of_result (getitem (JObj split_rec) (document_text_property cfg));
     get_embeddings text (openai_api_key cfg) "text-embedding-ada-002")
    (λ msg, raise (AbortedSyncFailedException (abort_prefix +:+ msg))).

(** The loop body, lines 178-192. *)
Definition emit (message_dict split_rec : gmap string json)
  : Gen (gmap string json) unit :=
  embeddings ← lift (embed split_rec);
  let split_rec := <["embeddings" := embeddings]> split_rec in
  let new_message := <["record" := JObj split_rec]> message_dict in
  yield (RecordMessage_from_dict new_message).

(** [message_dict["record"]] that is no dict fails in [split_record]'s first
    statement, which subscripts it with a string: TypeError. *)
Definition map_record_message (message_dict : gmap string json)
  : Gen (gmap string json) unit :=
  record ← lift (of_result (getitem (JObj message_dict) "record"));
  match record with
  | JObj record =>
      _ ← for_in (split_record record) (emit message_dict);
      greturn tt
  | _ => lift (raise TypeError)
  end.

(** *** Notions the properties are stated with *)

(** The settings [split_record] never writes. *)
Definition same_settings (c c' : Config) : Prop :=
  document_text_property c' = document_text_property c
  ∧ document_metadata_property c' = document_metadata_property c
  ∧ openai_api_key c' = openai_api_key c
  ∧ split_documents c' = split_documents c.

(** [splitter_config] with the chunker's defaults filled in: the entries it
    has stay, a missing [chunk_size] is 1000, a missing [chunk_overlap] 200. *)
Definition with_defaults (d : gmap string json) : gmap string json :=
  d ∪ <["chunk_size" := JInt 1000]> {[ "chunk_overlap" := JInt 200 ]}.

Definition result_map {A B} (f : A → B) (r : result A) : result B :=
  match r with Ok a => Ok (f a) | Raise e => Raise e end.

(** The request [get_embeddings] sends for a text. *)
Definition request_for (text : string) (key : option string) (model : string)
  : Request :=
  {| input := [replace newline space text]; model := model; api_key := key |}.

Definition sent (req : Request) (st : State) : State :=
  {| config := config st; environ := environ st; requests := requests st ++ [req] |}.

(** The remote service answers every request, with a response that holds a
    vector. *)
Definition answers : Prop :=
  ∀ history req, ∃ response_dict vector,
    Embedding_create history req = Ok response_dict
    ∧ embedding_of_response response_dict = Ok vector.

(** The one write to the configuration: the chunker's defaults filled into a
    [splitter_config] object that is present, when splitting is enabled. *)
Definition only_fills_splitter_defaults (c c' : Config) : Prop :=
  c' = c
  ∨ ∃ d, splitter_config c = Some (JObj d)
         ∧ truthy (default (JBool true) (split_documents c)) = true
         ∧ c' = set_splitter_config (Some (JObj (with_defaults d))) c.

(** *** Concrete inputs *)

Definition st_default : State := demo_state (demo_config None None (Some "sk")).
Definition st_unsplit : State :=
  demo_state (demo_config (Some (JBool false)) None (Some "sk")).
Definition st_windows : State :=
  demo_state (demo_config None (Some (JObj {[ "chunk_size" := JInt 4 ]})) (Some "sk")).
Definition st_empty_splitter : State :=
  demo_state (demo_config None (Some (JObj ∅)) (Some "sk")).
Definition st_no_key : State := demo_state (demo_config None None None).

(** The remote service answers the first request and rate-limits the second. *)
Definition limited_after_one : list Request → Request → result json :=
  scripted [Ok (response [0.5%float]); Raise (RateLimitError "slow down")].

Definition always_answers : list Request → Request → result json :=
  λ _ _, Ok (response [0.5%float; 0.25%float]).

(** The configuration of [st_windows] once [split_record] has filled in the
    missing [chunk_overlap]. *)
Definition windows_config : Config :=
  demo_config None
    (Some (JObj (<["chunk_overlap" := JInt 200]> {[ "chunk_size" := JInt 4 ]})))
    (Some "sk").

Definition windows_state (texts : list string) : State :=
  {| config := windows_config;
     environ := ∅;
     requests := (λ t, request_for t (Some "sk") "text-embedding-ada-002") <$> texts |}.

Definition window_segment (text : string) : Document :=
  {| page_content := text; metadata := {[ "source" := JStr "doc1" ]} |}.

Definition window_record (i : nat) (text : string) : gmap string json :=
  new_record windows_config (demo_record "abcdefghij") i (window_segment text).

Definition window_output (i : nat) (text : string) (vector : json)
  : gmap string json :=
  <["record" := JObj (<["embeddings" := vector]> (window_record i text))]>
    (demo_message "abcdefghij").

Definition demo_vector : json := JList [JFloat 0.5%float; JFloat 0.25%float].

(** *** More notions and concrete inputs *)

(** The configuration one [split_record] call on [record] leaves behind.
    The write happens when the record has the text field, [split_documents]
    is absent or truthy, and [splitter_config] is present as an object: that
    object gets the missing defaults; in every other case nothing changes. *)
Definition config_after_split (record : gmap string json) (c : Config) : Config :=
  match record !! document_text_property c, splitter_config c with
  | Some _, Some (JObj d) =>
      if truthy (default (JBool true) (split_documents c))
      then set_splitter_config (Some (JObj (with_defaults d))) c
      else c
  | _, _ => c
  end.

(** A framework validation that rejects the configuration: asked to raise
    errors it raises, otherwise it reports the error. *)
Definition rejecting (cfg : Config) (raise_errors warnings_as_errors : bool)
  : result (list string * list string) :=
  if raise_errors
  then Raise (ConfigValidationError "Config validation failed: 5 is not of type 'string'")
  else Ok ([], ["5 is not of type 'string'"]).

Definition set_environ (env : gmap string string) (st : State) : State :=
  {| config := config st; environ := env; requests := requests st |}.

(** The service answers the first request and then fails in transport. *)
Definition fails_after_one : list Request → Request → result json :=
  scripted [Ok (response [0.5%float]);
            Raise (OtherError "APIConnectionError" "connection reset")].

(** A configuration whose text property is [segment_number]. *)
Definition text_in_segment_number (splitter : gmap string json) : State :=
  demo_state
    {| document_text_property := "segment_number";
       document_metadata_property := "metadata";
       openai_api_key := Some "sk";
       split_documents := None;
       splitter_config := Some (JObj splitter) |}.

(** A response of the documented shape, with a second data entry. *)
Definition documented_response : json :=
  JObj (<["object" := JStr "list"]>
          (<["model" := JStr "text-embedding-ada-002"]>
             {[ "data" := JList [JObj (<["object" := JStr "embedding"]>
                                         (<["index" := JInt 0]>
                                            {[ "embedding" := demo_vector ]}));
                                 JObj {[ "embedding" := JList [] ]}] ]})).

(** An environment that sets only the plugin-specific variable the
    credential message names. *)
Definition plugin_variable_only : gmap string string :=
  {[ "MAP_OPENAI_EMBEDDINGS_OPEN_API_KEY" := "sk" ]}.

(** ** Properties *)

Lemma for_each_yield {Y} (ys : list Y) (st : State) :
  for_each ys yield st = ((ys, Ok tt), st).
Proof.
  induction ys as [|y ys IH]; [reflexivity|].
  cbn [for_each]. unfold gbind. cbn [yield]. rewrite IH. reflexivity.
Qed.

Lemma for_each_app {X Y} (xs xs' : list X) (body : X → Gen Y unit) (st : State) :
  for_each (xs ++ xs') body st =
  match for_each xs body st with
  | ((ys, Ok _), st') =>
      let '((ys', r), st'') := for_each xs' body st' in ((ys ++ ys', r), st'')
  | ((ys, Raise e), st') => ((ys, Raise e), st')
  end.
Proof.
  revert st. induction xs as [|x xs IH]; intros st.
  - cbn. destruct (for_each xs' body st) as [[ys' r] st'']. reflexivity.
  - cbn [app for_each]. unfold gbind.
    destruct (body x st) as [[ys [[]|e]] st1]; [|reflexivity].
    rewrite IH.
    destruct (for_each xs body st1) as [[ys1 [[]|e1]] st2]; [|reflexivity].
    destruct (for_each xs' body st2) as [[ys2 r2] st3].
    by rewrite app_assoc.
Qed.

(** *** The chunking prologue and the configuration *)

Lemma with_defaults_fill (d : gmap string json) (d1 : gmap string json) :
  d1 = match d !! "chunk_size" with
       | Some _ => d | None => <["chunk_size" := JInt 1000]> d end →
  match d1 !! "chunk_overlap" with
  | Some _ => d1 | None => <["chunk_overlap" := JInt 200]> d1 end
  = with_defaults d.
Proof.
  intros ->. unfold with_defaults. apply map_eq. intros k. rewrite lookup_union.
  destruct (d !! "chunk_size") as [size|] eqn:Hsize;
    rewrite ?lookup_insert_ne by done;
    destruct (d !! "chunk_overlap") as [overlap|] eqn:Hoverlap;
    destruct (decide (k = "chunk_size")) as [Hk|Hk];
    destruct (decide (k = "chunk_overlap")) as [Hk'|Hk'];
    destruct (d !! k) eqn:Hdk; by simplify_map_eq.
Qed.

(** What the filled-in object holds: every entry it had, and the two
    defaults where they were missing. *)
Lemma with_defaults_lookup (d : gmap string json) (k : string) :
  with_defaults d !! k =
  match d !! k with
  | Some v => Some v
  | None =>
      if decide (k = "chunk_size") then Some (JInt 1000)
      else if decide (k = "chunk_overlap") then Some (JInt 200)
      else None
  end.
Proof.
  unfold with_defaults. rewrite lookup_union.
  destruct (d !! k) as [v|]; [by destruct (_ !! k)|].
  repeat case_decide; by simplify_map_eq.
Qed.

(** The prologue of [split_record], case by case. *)
Lemma split_record_segments_eq (record : gmap string json) (st : State) :
  split_record_segments record st =
  let cfg := config st in
  match record !! document_text_property cfg with
  | None => (Raise (KeyError (document_text_property cfg)), st)
  | Some raw_document_text =>
      let metadata_dict :=
        default (JObj ∅) (record !! document_metadata_property cfg) in
      if truthy (default (JBool true) (split_documents cfg)) then
        match splitter_config cfg with
        | None =>
            (result_map Some
               (text_splitter (with_defaults ∅) raw_document_text metadata_dict),
             st)
        | Some (JObj d) =>
            (result_map Some
               (text_splitter (with_defaults d) raw_document_text metadata_dict),
             set_config (set_splitter_config (Some (JObj (with_defaults d))) cfg) st)
        | Some _ => (Raise TypeError, st)
        end
      else (Ok None, st)
  end.
Proof.
  destruct st as [[tp mp key split splitter] env reqs].
  unfold split_record_segments. unfold_monad. cbn.
  destruct (record !! tp) as [raw|]; [|reflexivity].
  destruct (truthy (default (JBool true) split)); [|reflexivity].
  cbn. unfold config_get_splitter_config. unfold_monad. cbn.
  destruct splitter as [[| | | | | |d]|]; try reflexivity.
  - (* the dict held in the configuration *)
    unfold set_if_missing, setitem, deref. unfold_monad. cbn.
    pose proof (with_defaults_fill d _ eq_refl) as Hfill.
    destruct (d !! "chunk_size") as [size|] eqn:Hsize; cbn.
    + destruct (d !! "chunk_overlap") as [overlap|] eqn:Hoverlap; cbn.
      * rewrite <- Hfill.
        destruct (text_splitter d raw _); reflexivity.
      * rewrite <- Hfill. cbn.
        destruct (text_splitter _ raw _); reflexivity.
    + rewrite lookup_insert_ne in Hfill |- * by done.
      destruct (d !! "chunk_overlap") as [overlap|] eqn:Hoverlap; cbn.
      * rewrite <- Hfill. destruct (text_splitter _ raw _); reflexivity.
      * rewrite <- Hfill. destruct (text_splitter _ raw _); reflexivity.
  - (* the fresh default dict *)
    unfold set_if_missing, setitem, deref. unfold_monad. cbn.
    rewrite lookup_empty. cbn.
    rewrite lookup_insert_ne, lookup_empty by done. cbn.
    replace (with_defaults ∅) with
      (<["chunk_overlap" := JInt 200]> (<["chunk_size" := JInt 1000]> (∅ : gmap string json))).
    + destruct (text_splitter _ raw _); reflexivity.
    + rewrite <- (with_defaults_fill ∅ _ eq_refl).
      rewrite lookup_empty, lookup_insert_ne, lookup_empty by done. reflexivity.
Qed.

(** [split_record] in terms of its prologue: the yields are the numbered
    copies of the record, one per segment. *)
Lemma split_record_eq (record : gmap string json) (st : State) :
  split_record record st =
  match split_record_segments record st with
  | (Ok None, st') => (([], Ok (Some record)), st')
  | (Ok (Some document_segments), st') =>
      ((imap (new_record (config st') record) document_segments, Ok None), st')
  | (Raise e, st') => (([], Raise e), st')
  end.
Proof.
  unfold split_record. unfold_monad.
  destruct (split_record_segments record st) as [[[segs|]|e] st']; try reflexivity.
  rewrite for_each_yield. by rewrite app_nil_r.
Qed.

(** The chunking prologue makes no embedding request, leaves the environment
    alone and writes no setting other than [splitter_config]. *)
Lemma split_record_segments_state (record : gmap string json) (st : State) :
  let st' := (split_record_segments record st).2 in
  requests st' = requests st ∧ environ st' = environ st
  ∧ same_settings (config st) (config st').
Proof.
  rewrite split_record_segments_eq. cbn zeta. unfold same_settings.
  destruct (record !! _); [|done].
  destruct (truthy _); [|done].
  destruct (splitter_config (config st)) as [[| | | | | |d]|]; done.
Qed.

Lemma split_record_state (record : gmap string json) (st : State) :
  (split_record record st).2 = (split_record_segments record st).2.
Proof.
  rewrite split_record_eq.
  by destruct (split_record_segments record st) as [[[segs|]|e] st'].
Qed.

(** C10: a record without the configured document-text property makes
    [split_record] raise KeyError for that property before any segment is
    produced, whatever [split_documents] says: the lookup on line 100 comes
    first and is unguarded.  Nothing is yielded and the state is untouched. *)
Theorem split_record_missing_text_KeyError (record : gmap string json) (st : State) :
  record !! document_text_property (config st) = None →
  split_record record st
  = (([], Raise (KeyError (document_text_property (config st)))), st).
Proof.
  intros Hmissing.
  rewrite split_record_eq, split_record_segments_eq. cbn zeta.
  by rewrite Hmissing.
Qed.

(** C1 (what the code does): with [split_documents] set to a false value,
    [split_record] yields nothing: its [return record] only ends the
    generator, with the unchanged record as the generator's return value.
    [map_record_message] therefore emits no output record for the input
    record, makes no embedding request and raises nothing. *)
Theorem split_documents_false_emits_nothing
    (message_dict record : gmap string json) (flag : json) (st : State) :
  message_dict !! "record" = Some (JObj record) →
  is_Some (record !! document_text_property (config st)) →
  split_documents (config st) = Some flag →
  truthy flag = false →
  split_record record st = (([], Ok (Some record)), st)
  ∧ map_record_message message_dict st = (([], Ok tt), st).
Proof.
  intros Hrecord [text Htext] Hflag Hfalse.
  assert (split_record record st = (([], Ok (Some record)), st)) as Hsplit.
  { rewrite split_record_eq, split_record_segments_eq. cbn zeta.
    rewrite Htext, Hflag. cbn. by rewrite Hfalse. }
  split; [done|].
  unfold map_record_message, for_in. unfold_monad. cbn.
  rewrite Hrecord, Hsplit. reflexivity.
Qed.

(** C6: when chunking a record produces zero segments ([split_record] yields
    nothing and ends without raising), [map_record_message] emits zero output
    records and raises nothing; no embedding request is made. *)
Theorem no_segments_no_output
    (message_dict record : gmap string json) (st st' : State)
    (r : option (gmap string json)) :
  message_dict !! "record" = Some (JObj record) →
  split_record record st = (([], Ok r), st') →
  map_record_message message_dict st = (([], Ok tt), st')
  ∧ requests st' = requests st.
Proof.
  intros Hrecord Hsplit. split.
  - unfold map_record_message, for_in. unfold_monad. cbn.
    rewrite Hrecord, Hsplit. reflexivity.
  - pose proof (split_record_state record st) as Hst.
    rewrite Hsplit in Hst. cbn in Hst. rewrite Hst.
    apply split_record_segments_state.
Qed.

(** *** The embedding call and the emission loop *)

Lemma get_embeddings_eq (text : string) (key : option string) (model : string)
    (st : State) :
  get_embeddings (JStr text) key model st =
  (match Embedding_create (requests st) (request_for text key model) with
   | Ok response_dict => embedding_of_response response_dict
   | Raise e => Raise e
   end,
   sent (request_for text key model) st).
Proof.
  unfold get_embeddings, call_Embedding_create, request_for, sent. unfold_monad.
  by destruct (Embedding_create _ _).
Qed.

Lemma get_embeddings_config (text : json) (key : option string) (model : string)
    (st : State) :
  config (get_embeddings text key model st).2 = config st.
Proof.
  destruct text; try reflexivity. by rewrite get_embeddings_eq.
Qed.

Lemma embed_config (split_rec : gmap string json) (st : State) :
  config (embed split_rec st).2 = config st.
Proof.
  unfold embed, except_RateLimitError. unfold_monad. cbn.
  destruct (split_rec !! _) as [text|]; [|reflexivity].
  pose proof (get_embeddings_config text (openai_api_key (config st))
                "text-embedding-ada-002" st) as Hcfg.
  destruct (get_embeddings _ _ _ st) as [[v|[]] st']; exact Hcfg.
Qed.

(** A successful [embed]: the split record's text field is a string, the
    request for it was answered, and the answer held the vector. *)
Lemma embed_Ok_inv (split_rec : gmap string json) (vector : json) (st st' : State) :
  embed split_rec st = (Ok vector, st') →
  ∃ text response_dict,
    split_rec !! document_text_property (config st) = Some (JStr text)
    ∧ Embedding_create (requests st)
        (request_for text (openai_api_key (config st)) "text-embedding-ada-002")
      = Ok response_dict
    ∧ embedding_of_response response_dict = Ok vector
    ∧ st' = sent (request_for text (openai_api_key (config st))
                    "text-embedding-ada-002") st.
Proof.
  unfold embed, except_RateLimitError. unfold_monad. cbn.
  destruct (split_rec !! _) as [text|]; [|discriminate].
  destruct text as [| | | |text| |];
    try (cbn; discriminate).
  rewrite get_embeddings_eq.
  destruct (Embedding_create _ _) as [response_dict|e] eqn:Hcall.
  - destruct (embedding_of_response response_dict) as [v|e] eqn:Hvec.
    + intros [= <- <-]. by exists text, response_dict.
    + destruct e; discriminate.
  - destruct e; discriminate.
Qed.

(** The [except] clause: a rate-limit error of the call becomes the
    sync-aborting error, with the original message after the fixed prefix. *)
Lemma embed_rate_limit (split_rec : gmap string json) (text : json) (msg : string)
    (st st' : State) :
  split_rec !! document_text_property (config st) = Some text →
  get_embeddings text (openai_api_key (config st)) "text-embedding-ada-002" st
  = (Raise (RateLimitError msg), st') →
  embed split_rec st
  = (Raise (AbortedSyncFailedException (abort_prefix +:+ msg)), st').
Proof.
  intros Htext Hcall.
  unfold embed, except_RateLimitError. unfold_monad. cbn.
  by rewrite Htext, Hcall.
Qed.

Lemma emit_eq (message_dict split_rec : gmap string json) (st : State) :
  emit message_dict split_rec st =
  match embed split_rec st with
  | (Ok embeddings, st') =>
      (([<["record" := JObj (<["embeddings" := embeddings]> split_rec)]> message_dict],
        Ok tt), st')
  | (Raise e, st') => (([], Raise e), st')
  end.
Proof.
  unfold emit, RecordMessage_from_dict, yield. unfold_monad.
  by destruct (embed split_rec st) as [[v|e] st'].
Qed.

Lemma for_each_emit_config (message_dict : gmap string json)
    (recs : list (gmap string json)) (st : State) :
  config (for_each recs (emit message_dict) st).2 = config st.
Proof.
  revert st. induction recs as [|sr recs IH]; intros st; [reflexivity|].
  cbn [for_each]. unfold gbind. rewrite emit_eq.
  pose proof (embed_config sr st) as Hcfg.
  destruct (embed sr st) as [[v|e] st1]; cbn in Hcfg |- *; [|done].
  specialize (IH st1).
  destruct (for_each recs (emit message_dict) st1) as [[ys r] st2].
  cbn in IH |- *. congruence.
Qed.

(** A loop that ended without an exception emitted one message per split
    record. *)
Lemma for_each_emit_length (message_dict : gmap string json)
    (recs : list (gmap string json)) (outs : list (gmap string json))
    (st st' : State) :
  for_each recs (emit message_dict) st = ((outs, Ok tt), st') →
  length outs = length recs.
Proof.
  revert outs st. induction recs as [|sr recs IH]; intros outs st.
  - cbn. by intros [= <- <-].
  - cbn [for_each]. unfold gbind. rewrite emit_eq.
    destruct (embed sr st) as [[v|e] st1]; [|discriminate].
    destruct (for_each recs (emit message_dict) st1) as [[ys r] st2] eqn:Hrest.
    intros [= <- -> <-]. cbn. f_equal. by eapply IH.
Qed.

(** Every message the loop emitted, at position [i], is the input message
    with its record replaced by the [i]-th split record plus the vector that
    [embed] returned for it, in a state with the loop's configuration. *)
Lemma for_each_emit_lookup (message_dict : gmap string json)
    (recs : list (gmap string json)) (outs : list (gmap string json))
    (r : result unit) (st st' : State) (i : nat) (out : gmap string json) :
  for_each recs (emit message_dict) st = ((outs, r), st') →
  outs !! i = Some out →
  ∃ split_rec vector st1 st2,
    recs !! i = Some split_rec
    ∧ config st1 = config st
    ∧ embed split_rec st1 = (Ok vector, st2)
    ∧ out = <["record" := JObj (<["embeddings" := vector]> split_rec)]> message_dict.
Proof.
  revert outs st i. induction recs as [|sr recs IH]; intros outs st i.
  - cbn. by intros [= <- <- <-].
  - cbn [for_each]. unfold gbind. rewrite emit_eq.
    pose proof (embed_config sr st) as Hcfg.
    destruct (embed sr st) as [[v|e] st1] eqn:Hembed; cbn in Hcfg.
    + destruct (for_each recs (emit message_dict) st1) as [[ys r'] st2] eqn:Hrest.
      intros [= <- <- <-]. destruct i as [|i]; cbn.
      * intros [= <-]. by exists sr, v, st, st1.
      * intros Hout.
        destruct (IH _ _ _ Hrest Hout) as (sr' & v' & s1 & s2 & ? & ? & ? & ?).
        exists sr', v', s1, s2. split_and!; [done|congruence|done|done].
    + by intros [= <- <- <-].
Qed.

(** C3: when the embedding call for chunk [i] raises a rate-limit error,
    after the chunks before it were embedded and emitted as [outs],
    [map_record_message] raises the sync-aborting error whose message is the
    fixed prefix followed by the original error message; what it emitted is
    exactly [outs], the [i] messages of the earlier chunks, so nothing is
    emitted for chunk [i] or a later one, and the run stops in the state
    right after the failed call (no request for a later chunk). *)
Theorem rate_limit_aborts_sync
    (message_dict record : gmap string json)
    (recs : list (gmap string json)) (r : result (option (gmap string json)))
    (i : nat) (split_rec : gmap string json) (outs : list (gmap string json))
    (text : json) (msg : string) (st st1 st2 st3 : State) :
  message_dict !! "record" = Some (JObj record) →
  split_record record st = ((recs, r), st1) →
  recs !! i = Some split_rec →
  for_each (take i recs) (emit message_dict) st1 = ((outs, Ok tt), st2) →
  split_rec !! document_text_property (config st2) = Some text →
  get_embeddings text (openai_api_key (config st2)) "text-embedding-ada-002" st2
  = (Raise (RateLimitError msg), st3) →
  map_record_message message_dict st
  = ((outs, Raise (AbortedSyncFailedException (abort_prefix +:+ msg))), st3)
  ∧ length outs = i.
Proof.
  intros Hrecord Hsplit Hi Hbefore Htext Hcall. split.
  - unfold map_record_message, for_in. unfold_monad. cbn.
    rewrite Hrecord, Hsplit.
    rewrite <- (take_drop_middle recs i split_rec Hi).
    rewrite for_each_app, Hbefore.
    cbn [for_each]. unfold gbind. rewrite emit_eq.
    rewrite (embed_rate_limit _ _ _ _ _ Htext Hcall).
    by rewrite app_nil_r.
  - rewrite (for_each_emit_length _ _ _ _ _ Hbefore).
    apply length_take_le. apply lookup_lt_Some in Hi. lia.
Qed.

Lemma embed_answers (split_rec : gmap string json) (text : string) (st : State) :
  answers →
  split_rec !! document_text_property (config st) = Some (JStr text) →
  ∃ vector st', embed split_rec st = (Ok vector, st').
Proof.
  intros Hanswers Htext.
  unfold embed, except_RateLimitError. unfold_monad. cbn.
  rewrite Htext, get_embeddings_eq.
  destruct (Hanswers (requests st)
              (request_for text (openai_api_key (config st))
                 "text-embedding-ada-002"))
    as (response_dict & vector & -> & ->).
  by eexists _, _.
Qed.

(** With a service that answers, the loop over split records whose text field
    is a string runs to its end. *)
Lemma for_each_emit_answers (message_dict : gmap string json)
    (recs : list (gmap string json)) (st : State) :
  answers →
  Forall (λ split_rec : gmap string json,
            ∃ text, split_rec !! document_text_property (config st)
                    = Some (JStr text)) recs →
  ∃ outs st', for_each recs (emit message_dict) st = ((outs, Ok tt), st').
Proof.
  intros Hanswers. revert st.
  induction recs as [|sr recs IH]; intros st Htexts.
  - by exists [], st.
  - apply Forall_cons in Htexts as [[text Htext] Htexts].
    destruct (embed_answers sr text st Hanswers Htext) as (vector & st1 & Hembed).
    pose proof (embed_config sr st) as Hcfg. rewrite Hembed in Hcfg. cbn in Hcfg.
    rewrite <- Hcfg in Htexts.
    destruct (IH st1 Htexts) as (outs & st2 & Hrest).
    cbn [for_each]. unfold gbind. rewrite emit_eq, Hembed, Hrest.
    by eexists _, _.
Qed.

(** [map_record_message] on a record message, in terms of the split and the
    emission loop. *)
Lemma map_record_message_eq (message_dict record : gmap string json) (st : State) :
  message_dict !! "record" = Some (JObj record) →
  map_record_message message_dict st =
  match split_record record st with
  | ((recs, r), st1) =>
      match for_each recs (emit message_dict) st1 with
      | ((outs, Ok _), st2) => ((outs, result_map (λ _, tt) r), st2)
      | ((outs, Raise e), st2) => ((outs, Raise e), st2)
      end
  end.
Proof.
  intros Hrecord. unfold map_record_message, for_in. unfold_monad. cbn.
  rewrite Hrecord.
  destruct (split_record record st) as [[recs r] st1].
  destruct (for_each recs (emit message_dict) st1) as [[outs [[]|e]] st2];
    [|reflexivity].
  destruct r; cbn; by rewrite ?app_nil_r.
Qed.

(** C5: the output record for chunk [i] is the input record with the
    configured text field set to the chunk's text, the configured metadata
    field set to the chunk's metadata, [segment_number] set to [i] and
    [embeddings] set to the vector the service returned for the chunk's text
    (newlines replaced), every other field being the input record's.  The
    four field names are taken to be distinct.  Every emitted message is of
    this form; a run that ends without an exception has emitted one per
    chunk; and the run does end without an exception when the service answers
    every request. *)
Theorem output_record_fields
    (message_dict record : gmap string json) (segments : list Document)
    (outs : list (gmap string json)) (r : result unit) (st st1 st2 : State) :
  let tp := document_text_property (config st) in
  let mp := document_metadata_property (config st) in
  tp ≠ mp → tp ≠ "segment_number" → tp ≠ "embeddings" →
  mp ≠ "segment_number" → mp ≠ "embeddings" →
  message_dict !! "record" = Some (JObj record) →
  split_record_segments record st = (Ok (Some segments), st1) →
  map_record_message message_dict st = ((outs, r), st2) →
  (answers → r = Ok tt)
  ∧ (r = Ok tt → length outs = length segments)
  ∧ ∀ i out, outs !! i = Some out →
      ∃ segment vector out_record history response_dict,
        segments !! i = Some segment
        ∧ out = <["record" := JObj out_record]> message_dict
        ∧ out_record !! tp = Some (JStr (page_content segment))
        ∧ out_record !! mp = Some (JObj (metadata segment))
        ∧ out_record !! "segment_number" = Some (JInt (Z.of_nat i))
        ∧ out_record !! "embeddings" = Some vector
        ∧ Embedding_create history
            (request_for (page_content segment) (openai_api_key (config st))
               "text-embedding-ada-002") = Ok response_dict
        ∧ embedding_of_response response_dict = Ok vector
        ∧ ∀ k, k ≠ tp → k ≠ mp → k ≠ "segment_number" → k ≠ "embeddings" →
               out_record !! k = record !! k.
Proof.
  intros tp mp Htm Hts Hte Hms Hme Hrecord Hsegments Hrun.
  rewrite (map_record_message_eq _ _ _ Hrecord), split_record_eq, Hsegments in Hrun.
  destruct (split_record_segments_state record st) as (_ & _ & Htp & Hmp & Hkey & _).
  rewrite Hsegments in Htp, Hmp, Hkey. cbn in Htp, Hmp, Hkey.
  set (recs := imap (new_record (config st1) record) segments) in Hrun.
  destruct (for_each recs (emit message_dict) st1) as [[outs' r'] st2'] eqn:Hloop.
  assert (outs' = outs) as ->
    by (destruct r' as [[]|e]; by injection Hrun as [= ? ? ?]).
  split_and!.
  - intros Hanswers.
    destruct (for_each_emit_answers message_dict recs st1 Hanswers)
      as (outs' & st' & Hdone).
    + apply Forall_lookup. intros i split_rec Hi.
      unfold recs in Hi. rewrite list_lookup_imap in Hi.
      destruct (segments !! i) as [segment|]; [|discriminate].
      injection Hi as [= <-]. exists (page_content segment).
      unfold new_record. rewrite Htp, Hmp. fold tp mp.
      by rewrite !lookup_insert_ne, lookup_insert_eq by done.
    + rewrite Hdone in Hloop. assert (r' = Ok tt) as -> by congruence.
      cbn in Hrun. congruence.
  - intros ->. destruct r' as [[]|e]; [|discriminate].
    rewrite (for_each_emit_length _ _ _ _ _ Hloop).
    unfold recs. apply length_imap.
  - intros i out Hout.
    destruct (for_each_emit_lookup _ _ _ _ _ _ _ _ Hloop Hout)
      as (split_rec & vector & s1 & s2 & Hrec & Hcfg & Hembed & ->).
    unfold recs in Hrec. rewrite list_lookup_imap in Hrec.
    destruct (segments !! i) as [segment|] eqn:Hsegment; [|discriminate].
    injection Hrec as [= <-].
    destruct (embed_Ok_inv _ _ _ _ Hembed)
      as (text & response_dict & Htext & Hcall & Hvector & _).
    rewrite Hcfg in Htext, Hcall. rewrite Htp in Htext. rewrite Hkey in Hcall.
    fold tp in Htext.
    unfold new_record in Htext. rewrite Htp, Hmp in Htext. fold tp mp in Htext.
    rewrite lookup_insert_ne, lookup_insert_ne, lookup_insert_eq in Htext by done.
    injection Htext as [= <-].
    exists segment, vector,
      (<["embeddings" := vector]> (new_record (config st1) record i segment)),
      (requests s1), response_dict.
    unfold new_record. rewrite Htp, Hmp. fold tp mp.
    split_and!; try done.
    + by rewrite !lookup_insert_ne, lookup_insert_eq by done.
    + by rewrite !lookup_insert_ne, lookup_insert_eq by done.
    + by rewrite lookup_insert_ne, lookup_insert_eq by done.
    + by rewrite lookup_insert_eq.
    + intros k ? ? ? ?. by rewrite !lookup_insert_ne by done.
Qed.

(** *** get_embeddings *)

Lemma replace_length (old new : ascii) (s : string) :
  String.length (replace old new s) = String.length s.
Proof. induction s as [|c s IH]; cbn; congruence. Qed.

Lemma replace_get (old new : ascii) (s : string) (i : nat) :
  String.get i (replace old new s)
  = (λ c, if Ascii.eqb c old then new else c) <$> String.get i s.
Proof.
  revert i. induction s as [|c s IH]; intros i; [reflexivity|].
  destruct i as [|i]; cbn; [reflexivity|apply IH].
Qed.

(** C4: [get_embeddings] on a text string makes one request, whose input is
    the text with every newline character replaced by one space character: the
    submitted string has the length of the text and, position by position,
    a space where the text has a newline and the text's own character
    elsewhere. *)
Theorem get_embeddings_replaces_newlines
    (text : string) (key : option string) (model : string) (st : State) :
  let submitted := replace newline space text in
  requests (get_embeddings (JStr text) key model st).2
  = requests st ++ [{| input := [submitted]; model := model; api_key := key |}]
  ∧ String.length submitted = String.length text
  ∧ ∀ i, String.get i submitted
         = (λ c, if Ascii.eqb c newline then space else c) <$> String.get i text.
Proof.
  cbn zeta. split_and!.
  - by rewrite get_embeddings_eq.
  - apply replace_length.
  - apply replace_get.
Qed.

(** *** _validate_config *)

(** The credential check, when the framework's own validation passes:
    [_validate_config]
    raises if and only if error-raising validation is requested, the
    [openai_api_key] setting is absent and [OPENAI_API_KEY] is not in the
    environment; what it raises is the ConfigValidationError whose message
    names the setting, the plugin's environment variable and the generic
    one. *)
Theorem validate_config_raises_iff
    (raise_errors warnings_as_errors : bool) (st : State)
    (report : list string * list string) :
  super_validate_config (config st) raise_errors warnings_as_errors = Ok report →
  ((∃ e, (_validate_config raise_errors warnings_as_errors st).1 = Raise e)
   ↔ raise_errors = true
     ∧ openai_api_key (config st) = None
     ∧ environ st !! "OPENAI_API_KEY" = None)
  ∧ (∀ e, (_validate_config raise_errors warnings_as_errors st).1 = Raise e →
          e = ConfigValidationError credential_message)
  ∧ credential_message
    = "Must set at least one of the following: `openai_api_key` setting, `MAP_OPENAI_EMBEDDINGS_OPEN_API_KEY` env var, or  `OPENAI_API_KEY` env var.".
Proof.
  intros Hsuper.
  unfold _validate_config. unfold_monad. cbn. rewrite Hsuper.
  split_and!; [|intros e|reflexivity].
  - destruct raise_errors; cbn; [|split; [by intros [e ?]|by intros [? _]]].
    repeat case_bool_decide; cbn; split;
      try (by intros [e ?]); try (by intros (_ & ? & ?)); eauto.
  - destruct raise_errors; cbn; [|discriminate].
    repeat case_bool_decide; cbn; try discriminate. by intros [= <-].
Qed.

(** C7, amended: [_validate_config] first runs the framework's validation
    and raises whatever that raises, whether or not a key is present.  When
    the framework's validation returns, it raises if and only if
    error-raising validation is requested, the [openai_api_key] setting is
    absent and [OPENAI_API_KEY] is not in the environment, and what it raises
    then is the ConfigValidationError whose message names the setting, the
    plugin's environment variable and the generic one. *)
Theorem validate_config_raises
    (raise_errors warnings_as_errors : bool) (st : State) :
  match super_validate_config (config st) raise_errors warnings_as_errors with
  | Raise e =>
      _validate_config raise_errors warnings_as_errors st = (Raise e, st)
  | Ok _ =>
      ((∃ e, (_validate_config raise_errors warnings_as_errors st).1 = Raise e)
       ↔ raise_errors = true
         ∧ openai_api_key (config st) = None
         ∧ environ st !! "OPENAI_API_KEY" = None)
      ∧ (∀ e, (_validate_config raise_errors warnings_as_errors st).1 = Raise e →
              e = ConfigValidationError credential_message)
  end
  ∧ credential_message
    = "Must set at least one of the following: `openai_api_key` setting, `MAP_OPENAI_EMBEDDINGS_OPEN_API_KEY` env var, or  `OPENAI_API_KEY` env var.".
Proof.
  split; [|reflexivity].
  unfold _validate_config. unfold_monad. cbn.
  destruct (super_validate_config _ _ _) as [report|e]; [|reflexivity].
  split; [|intros e].
  - destruct raise_errors; cbn; [|split; [by intros [e ?]|by intros [? _]]].
    repeat case_bool_decide; cbn; split;
      try (by intros [e ?]); try (by intros (_ & ? & ?)); eauto.
  - destruct raise_errors; cbn; [|discriminate].
    repeat case_bool_decide; cbn; try discriminate. by intros [= <-].
Qed.

(** C9 (what the code does): called without error-raising validation,
    [_validate_config] raises nothing once the framework's validation has
    returned, and returns Python's [None]: the method has no [return], so the
    framework's (warnings, errors) report is dropped and no tuple of two
    lists comes back. *)
Theorem validate_config_returns_None
    (warnings_as_errors : bool) (st : State) (report : list string * list string) :
  super_validate_config (config st) false warnings_as_errors = Ok report →
  _validate_config false warnings_as_errors st = (Ok None, st).
Proof.
  intros Hsuper. unfold _validate_config. unfold_monad. cbn.
  by rewrite Hsuper.
Qed.

(** *** Writes to the configuration *)

Lemma map_schema_message_state (message_dict : SchemaMessage) (st : State) :
  (map_schema_message message_dict st).2 = st.
Proof.
  unfold map_schema_message, for_in, super_map_schema_message, yield.
  unfold_monad. cbn.
  destruct (schema message_dict !! "properties") as [[| | | | | |P]|];
    try reflexivity.
  cbn. by destruct (key_properties message_dict).
Qed.

Lemma validate_config_state (raise_errors warnings_as_errors : bool) (st : State) :
  (_validate_config raise_errors warnings_as_errors st).2 = st.
Proof.
  unfold _validate_config. unfold_monad. cbn.
  destruct (super_validate_config _ _ _); [|reflexivity].
  by destruct (_ && _).
Qed.

Lemma split_record_config (record : gmap string json) (st : State) :
  only_fills_splitter_defaults (config st) (config (split_record record st).2).
Proof.
  rewrite split_record_state, split_record_segments_eq. cbn zeta.
  destruct (record !! _); [|by left].
  destruct (truthy _) eqn:Henabled; [|by left].
  destruct (splitter_config (config st)) as [[| | | | | |d]|] eqn:Hsplitter;
    try by left.
  right. by exists d.
Qed.

(** C8, amended: [map_schema_message], [get_embeddings] and
    [_validate_config] leave the configuration as it is.  [split_record], and
    [map_record_message] on a message whose record is an object, write it in
    exactly one case: the record has the text field, [split_documents] is
    absent or holds a truthy value, and [splitter_config] is present as an
    object.  The configuration is then the old one with that nested object
    replaced by itself plus the missing defaults: every entry it had stays, a
    missing [chunk_size] is 1000, a missing [chunk_overlap] is 200.  In every
    other case (no text field, a false value in [split_documents], no
    [splitter_config] or one that is no object, a message without an object
    record) the configuration is unchanged. *)
Theorem configuration_writes (st : State) :
  (∀ message_dict, config (map_schema_message message_dict st).2 = config st)
  ∧ (∀ text key model, config (get_embeddings text key model st).2 = config st)
  ∧ (∀ raise_errors warnings_as_errors,
       config (_validate_config raise_errors warnings_as_errors st).2 = config st)
  ∧ (∀ record,
       config (split_record record st).2 = config_after_split record (config st))
  ∧ (∀ message_dict,
       config (map_record_message message_dict st).2
       = match message_dict !! "record" with
         | Some (JObj record) => config_after_split record (config st)
         | _ => config st
         end)
  ∧ (∀ (d : gmap string json) (k : string),
       with_defaults d !! k
       = match d !! k with
         | Some v => Some v
         | None =>
             if decide (k = "chunk_size") then Some (JInt 1000)
             else if decide (k = "chunk_overlap") then Some (JInt 200)
             else None
         end).
Proof.
  assert (∀ record,
            config (split_record record st).2
            = config_after_split record (config st)) as Hsplit.
  { intros record.
    rewrite split_record_state, split_record_segments_eq. cbn zeta.
    unfold config_after_split.
    destruct (record !! _); [|reflexivity].
    destruct (splitter_config (config st)) as [[| | | | | |d]|];
      by destruct (truthy _). }
  split_and!.
  - intros m. by rewrite map_schema_message_state.
  - intros text key model. apply get_embeddings_config.
  - intros re wae. by rewrite validate_config_state.
  - exact Hsplit.
  - intros message_dict.
    destruct (message_dict !! "record") as [record|] eqn:Hrecord.
    + destruct record as [| | | | | |record];
        try (unfold map_record_message; unfold_monad; cbn;
             by rewrite Hrecord).
      rewrite (map_record_message_eq _ _ _ Hrecord).
      specialize (Hsplit record).
      destruct (split_record record st) as [[recs r] st1]. cbn in Hsplit.
      pose proof (for_each_emit_config message_dict recs st1) as Hloop.
      destruct (for_each recs (emit message_dict) st1) as [[outs [[]|e]] st2];
        cbn in Hloop |- *; by rewrite Hloop.
    + unfold map_record_message. unfold_monad. cbn. by rewrite Hrecord.
  - apply with_defaults_lookup.
Qed.

(** *** Further properties of [split_record] *)

Lemma new_record_names (c c' : Config) (record : gmap string json) :
  same_settings c c' → new_record c' record = new_record c record.
Proof. intros (Htp & Hmp & _). unfold new_record. by rewrite Htp, Hmp. Qed.

(** The text field of a numbered copy holds a string only when that string
    is the segment's text: a later write under the same name leaves a dict or
    a number there. *)
Lemma new_record_text (cfg : Config) (record : gmap string json) (i : nat)
    (doc_segment : Document) (text : string) :
  new_record cfg record i doc_segment !! document_text_property cfg
  = Some (JStr text) →
  text = page_content doc_segment.
Proof.
  unfold new_record. rewrite !lookup_insert.
  repeat case_decide; intros [=]; congruence.
Qed.

(** X3: when the chunker returned [segments], [split_record] yields one
    record per segment and ends with no return value; the record at position
    [i] carries [segment_number] = [i] (it is written last, so this holds
    for every configuration), and its fields are the input record's plus the
    text field, the metadata field and [segment_number]. *)
Theorem split_record_yields_numbered
    (record : gmap string json) (segments : list Document) (st st1 : State) :
  split_record_segments record st = (Ok (Some segments), st1) →
  ∃ recs,
    split_record record st = ((recs, Ok None), st1)
    ∧ length recs = length segments
    ∧ ∀ i rec, recs !! i = Some rec →
        rec !! "segment_number" = Some (JInt (Z.of_nat i))
        ∧ dom rec = dom record
                    ∪ {[ document_text_property (config st);
                         document_metadata_property (config st);
                         "segment_number" ]}.
Proof.
  intros Hsegments.
  exists (imap (new_record (config st1) record) segments).
  split_and!.
  - by rewrite split_record_eq, Hsegments.
  - apply length_imap.
  - intros i rec Hrec. rewrite list_lookup_imap in Hrec.
    destruct (segments !! i) as [segment|]; [|discriminate].
    injection Hrec as [= <-].
    destruct (split_record_segments_state record st) as (_ & _ & Hsame).
    rewrite Hsegments in Hsame. cbn in Hsame.
    rewrite (new_record_names _ _ _ Hsame). unfold new_record.
    split; [by rewrite lookup_insert_eq|].
    rewrite !dom_insert_L. apply set_eq. intros k.
    rewrite !elem_of_union, !elem_of_singleton. tauto.
Qed.

(** X4: with splitting enabled and [splitter_config] present as an object
    [d], the chunker is called with [d] plus the defaults for the names [d]
    lacks: every entry of [d] reaches it unchanged, a missing [chunk_size] is
    1000, a missing [chunk_overlap] is 200, and nothing else is added.  The
    same keyword arguments are what the configuration holds afterwards.  The
    input text is the record's text field, the metadata its metadata field, or
    the empty dict when the record has none. *)
Theorem splitter_config_entries_reach_chunker
    (record : gmap string json) (raw_document_text : json)
    (d : gmap string json) (st : State) :
  record !! document_text_property (config st) = Some raw_document_text →
  truthy (default (JBool true) (split_documents (config st))) = true →
  splitter_config (config st) = Some (JObj d) →
  ∃ kwargs : gmap string json,
    (split_record record st).1
    = match text_splitter kwargs raw_document_text
              (default (JObj ∅)
                 (record !! document_metadata_property (config st))) with
      | Ok document_segments =>
          (imap (new_record (config st) record) document_segments, Ok None)
      | Raise e => ([], Raise e)
      end
    ∧ splitter_config (config (split_record record st).2) = Some (JObj kwargs)
    ∧ (∀ k v, d !! k = Some v → kwargs !! k = Some v)
    ∧ (d !! "chunk_size" = None → kwargs !! "chunk_size" = Some (JInt 1000))
    ∧ (d !! "chunk_overlap" = None → kwargs !! "chunk_overlap" = Some (JInt 200))
    ∧ dom kwargs = dom d ∪ {[ "chunk_size"; "chunk_overlap" ]}.
Proof.
  intros Htext Henabled Hsplitter.
  exists (with_defaults d).
  assert (split_record_segments record st
          = (result_map Some
               (text_splitter (with_defaults d) raw_document_text
                  (default (JObj ∅)
                     (record !! document_metadata_property (config st)))),
             set_config
               (set_splitter_config (Some (JObj (with_defaults d))) (config st))
               st)) as Hsegments.
  { rewrite split_record_segments_eq. cbn zeta.
    by rewrite Htext, Henabled, Hsplitter. }
  split_and!.
  - rewrite split_record_eq, Hsegments.
    by destruct (text_splitter _ _ _).
  - by rewrite split_record_state, Hsegments.
  - intros k v Hk. by rewrite with_defaults_lookup, Hk.
  - intros Hk. by rewrite with_defaults_lookup, Hk.
  - intros Hk. by rewrite with_defaults_lookup, Hk.
  - unfold with_defaults. rewrite dom_union_L, dom_insert_L, dom_singleton_L.
    reflexivity.
Qed.

(** X5: with splitting enabled and no [splitter_config] in the
    configuration, the chunker is called with exactly [chunk_size] = 1000 and
    [chunk_overlap] = 200, and the configuration is left as it is: the
    defaults go into a fresh dict. *)
Theorem default_chunker_arguments
    (record : gmap string json) (raw_document_text : json) (st : State) :
  record !! document_text_property (config st) = Some raw_document_text →
  truthy (default (JBool true) (split_documents (config st))) = true →
  splitter_config (config st) = None →
  split_record record st
  = (match text_splitter
             (<["chunk_size" := JInt 1000]> {[ "chunk_overlap" := JInt 200 ]})
             raw_document_text
             (default (JObj ∅)
                (record !! document_metadata_property (config st))) with
     | Ok document_segments =>
         (imap (new_record (config st) record) document_segments, Ok None)
     | Raise e => ([], Raise e)
     end, st).
Proof.
  intros Htext Henabled Hsplitter.
  rewrite split_record_eq, split_record_segments_eq. cbn zeta.
  rewrite Htext, Henabled, Hsplitter.
  replace (with_defaults ∅) with
    (<["chunk_size" := JInt 1000]> ({[ "chunk_overlap" := JInt 200 ]} : gmap string json))
    by (unfold with_defaults; by rewrite (left_id_L ∅ (∪))).
  by destruct (text_splitter _ _ _).
Qed.

(** X6: with splitting enabled, a [splitter_config] that is present but is
    no object makes [split_record] raise TypeError before anything is
    yielded, written or sent. *)
Theorem splitter_config_not_object_TypeError
    (record : gmap string json) (v : json) (st : State) :
  is_Some (record !! document_text_property (config st)) →
  truthy (default (JBool true) (split_documents (config st))) = true →
  splitter_config (config st) = Some v →
  (∀ d, v ≠ JObj d) →
  split_record record st = (([], Raise TypeError), st).
Proof.
  intros [raw Htext] Henabled Hsplitter Hnot.
  rewrite split_record_eq, split_record_segments_eq. cbn zeta.
  rewrite Htext, Henabled, Hsplitter.
  destruct v; try reflexivity. by destruct (Hnot m).
Qed.

Lemma with_defaults_idemp (d : gmap string json) :
  with_defaults (with_defaults d) = with_defaults d.
Proof.
  apply map_eq. intros k. rewrite !with_defaults_lookup.
  destruct (d !! k); [done|]. by repeat case_decide.
Qed.

Lemma only_fills_splitter_defaults_once (c c1 c2 : Config) :
  only_fills_splitter_defaults c c1 →
  only_fills_splitter_defaults c1 c2 →
  c2 = c1 ∨ c1 = c.
Proof.
  intros [->|(d & Hd & _ & ->)] Hsecond; [by right|left].
  destruct Hsecond as [->|(d' & Hd' & _ & ->)]; [done|].
  cbn in Hd'. injection Hd' as [= <-].
  unfold set_splitter_config. cbn. by rewrite with_defaults_idemp.
Qed.

Lemma map_record_message_config (message_dict : gmap string json) (st : State) :
  only_fills_splitter_defaults (config st)
    (config (map_record_message message_dict st).2).
Proof.
  destruct (message_dict !! "record") as [record|] eqn:Hrecord.
  - destruct record as [| | | | | |record];
      try (left; unfold map_record_message; unfold_monad; cbn;
           by rewrite Hrecord).
    rewrite (map_record_message_eq _ _ _ Hrecord).
    pose proof (split_record_config record st) as Hsplit.
    destruct (split_record record st) as [[recs r] st1]. cbn in Hsplit.
    pose proof (for_each_emit_config message_dict recs st1) as Hloop.
    destruct (for_each recs (emit message_dict) st1) as [[outs [[]|e]] st2];
      cbn in Hloop |- *; by rewrite Hloop.
  - left. unfold map_record_message. unfold_monad. cbn. by rewrite Hrecord.
Qed.

(** X7: the configuration is written at most once.  Of two calls in a row,
    of [split_record] or of [map_record_message], on any records, the second
    leaves the configuration as the first left it, unless the first did not
    change it. *)
Theorem configuration_written_at_most_once (st : State) :
  (∀ record1 record2,
     let st1 := (split_record record1 st).2 in
     config (split_record record2 st1).2 = config st1 ∨ config st1 = config st)
  ∧ (∀ message1 message2,
       let st1 := (map_record_message message1 st).2 in
       config (map_record_message message2 st1).2 = config st1
       ∨ config st1 = config st).
Proof.
  split.
  - intros record1 record2 st1.
    eapply only_fills_splitter_defaults_once; apply split_record_config.
  - intros message1 message2 st1.
    eapply only_fills_splitter_defaults_once; apply map_record_message_config.
Qed.

(** [split_record] raises only before its first yield. *)
Lemma split_record_Raise_inv (record : gmap string json)
    (recs : list (gmap string json)) (e : exn) (st st1 : State) :
  split_record record st = ((recs, Raise e), st1) →
  recs = [] ∧ split_record_segments record st = (Raise e, st1).
Proof.
  rewrite split_record_eq.
  destruct (split_record_segments record st) as [[[segs|]|e'] st'];
    intros [= <- ? <-]; subst; done.
Qed.

(** X8: an exception of [split_record] (the missing text field, a
    [splitter_config] that is no object, an exception of the chunker) comes
    before anything is yielded, and [map_record_message] passes it on
    unchanged: no output record, no embedding request. *)
Theorem split_record_error_propagates
    (message_dict record : gmap string json)
    (recs : list (gmap string json)) (e : exn) (st st1 : State) :
  message_dict !! "record" = Some (JObj record) →
  split_record record st = ((recs, Raise e), st1) →
  recs = []
  ∧ map_record_message message_dict st = (([], Raise e), st1)
  ∧ requests st1 = requests st.
Proof.
  intros Hrecord Hsplit.
  destruct (split_record_Raise_inv _ _ _ _ _ Hsplit) as [-> Hsegments].
  split_and!; [done| |].
  - by rewrite (map_record_message_eq _ _ _ Hrecord), Hsplit.
  - pose proof (split_record_segments_state record st) as (Hreq & _).
    by rewrite Hsegments in Hreq.
Qed.

(** *** Further properties of [get_embeddings] *)

(** The responses [embedding_of_response] reads a vector from: an object
    whose ["data"] is a list that starts with an object holding
    ["embedding"]. *)
Lemma embedding_of_response_Ok (response_dict vector : json) :
  embedding_of_response response_dict = Ok vector
  ↔ ∃ (resp first : gmap string json) (rest : list json),
      response_dict = JObj resp
      ∧ resp !! "data" = Some (JList (JObj first :: rest))
      ∧ first !! "embedding" = Some vector.
Proof.
  unfold embedding_of_response, getitem, getitem0. split.
  - destruct response_dict as [| | | | | |resp]; try discriminate.
    destruct (resp !! "data") as [data|] eqn:Hdata; [|discriminate].
    destruct data as [| | | |s|l|m]; try discriminate.
    + destruct s; discriminate.
    + destruct l as [|first rest]; [discriminate|].
      destruct first as [| | | | | |first]; try discriminate.
      destruct (first !! "embedding") as [v|] eqn:Hv; [|discriminate].
      intros [= <-]. by exists resp, first, rest.
  - intros (resp & first & rest & -> & Hdata & Hv). by rewrite Hdata, Hv.
Qed.

(** X9: [get_embeddings] on a text string returns a vector exactly when the
    service answered its one request with an object whose ["data"] list
    starts with an object holding ["embedding"]; the vector is that entry,
    whatever else the response carries (other keys, further data entries). *)
Theorem get_embeddings_returns_first_embedding
    (text : string) (key : option string) (model : string) (vector : json)
    (st st' : State) :
  get_embeddings (JStr text) key model st = (Ok vector, st')
  ↔ st' = sent (request_for text key model) st
    ∧ ∃ (resp first : gmap string json) (rest : list json),
        Embedding_create (requests st) (request_for text key model)
        = Ok (JObj resp)
        ∧ resp !! "data" = Some (JList (JObj first :: rest))
        ∧ first !! "embedding" = Some vector.
Proof.
  rewrite get_embeddings_eq. split.
  - destruct (Embedding_create _ _) as [response_dict|e] eqn:Hcall;
      [|discriminate].
    intros [= Hvector <-]. split; [done|].
    apply embedding_of_response_Ok in Hvector
      as (resp & first & rest & -> & ? & ?).
    by exists resp, first, rest.
  - intros (-> & resp & first & rest & -> & Hdata & Hvector).
    f_equal. apply embedding_of_response_Ok. by exists resp, first, rest.
Qed.

(** X10: a [text] that is no string makes [get_embeddings] raise
    AttributeError (the value has no [replace]) before any request is
    made. *)
Theorem get_embeddings_not_str_AttributeError
    (text : json) (key : option string) (model : string) (st : State) :
  (∀ s, text ≠ JStr s) →
  get_embeddings text key model st = (Raise AttributeError, st).
Proof. intros Hne. destruct text; try reflexivity. by destruct (Hne s). Qed.

(** X16: no newline is ever sent: the request [get_embeddings] makes for a
    text string carries one input string, and no position of it holds a
    newline character. *)
Theorem get_embeddings_sends_no_newline
    (text : string) (key : option string) (model : string) (st : State) :
  ∃ submitted,
    requests (get_embeddings (JStr text) key model st).2
    = requests st ++ [{| input := [submitted]; model := model; api_key := key |}]
    ∧ ∀ i, String.get i submitted ≠ Some newline.
Proof.
  exists (replace newline space text). split.
  - by rewrite get_embeddings_eq.
  - intros i. rewrite replace_get.
    destruct (String.get i text) as [c|]; [|discriminate]. cbn.
    destruct (Ascii.eqb c newline) eqn:Hc; [discriminate|].
    intros [= ->]. by rewrite Ascii.eqb_refl in Hc.
Qed.

Lemma replace_absent (old new : ascii) (s : string) :
  (∀ i, String.get i s ≠ Some old) → replace old new s = s.
Proof.
  induction s as [|c s IH]; intros Habsent; [reflexivity|]. cbn.
  destruct (Ascii.eqb c old) eqn:Hc.
  - apply Ascii.eqb_eq in Hc as ->. by destruct (Habsent 0).
  - f_equal. apply IH. intros i. apply (Habsent (S i)).
Qed.

(** X17: a text string without newline characters is sent as it is. *)
Theorem get_embeddings_sends_newline_free_text_verbatim
    (text : string) (key : option string) (model : string) (st : State) :
  (∀ i, String.get i text ≠ Some newline) →
  requests (get_embeddings (JStr text) key model st).2
  = requests st ++ [{| input := [text]; model := model; api_key := key |}].
Proof.
  intros Hfree. rewrite get_embeddings_eq. cbn. unfold request_for.
  by rewrite (replace_absent _ _ _ Hfree).
Qed.

(** *** Further properties of [map_record_message] *)

(** X18: a message without a ["record"] entry makes [map_record_message]
    raise KeyError for it: nothing is emitted, written or sent. *)
Theorem map_record_message_missing_record_KeyError
    (message_dict : gmap string json) (st : State) :
  message_dict !! "record" = None →
  map_record_message message_dict st = (([], Raise (KeyError "record")), st).
Proof.
  intros Hmissing. unfold map_record_message. unfold_monad. cbn.
  by rewrite Hmissing.
Qed.

(** Only a rate-limit error is translated by the [except] clause. *)
Lemma embed_other_error (split_rec : gmap string json) (text : json) (e : exn)
    (st st' : State) :
  split_rec !! document_text_property (config st) = Some text →
  get_embeddings text (openai_api_key (config st)) "text-embedding-ada-002" st
  = (Raise e, st') →
  (∀ msg, e ≠ RateLimitError msg) →
  embed split_rec st = (Raise e, st').
Proof.
  intros Htext Hcall Hother.
  unfold embed, except_RateLimitError. unfold_monad. cbn.
  rewrite Htext, Hcall. destruct e; try reflexivity. by destruct (Hother msg).
Qed.

(** X11: when the embedding call for chunk [i] raises anything but a
    rate-limit error (a transport error, a malformed response), after the
    chunks before it were embedded and emitted as [outs],
    [map_record_message] raises that same exception, untranslated; it has
    emitted exactly [outs] and stops in the state right after the failed
    call. *)
Theorem other_errors_propagate_unchanged
    (message_dict record : gmap string json)
    (recs : list (gmap string json)) (r : result (option (gmap string json)))
    (i : nat) (split_rec : gmap string json) (outs : list (gmap string json))
    (text : json) (e : exn) (st st1 st2 st3 : State) :
  message_dict !! "record" = Some (JObj record) →
  split_record record st = ((recs, r), st1) →
  recs !! i = Some split_rec →
  for_each (take i recs) (emit message_dict) st1 = ((outs, Ok tt), st2) →
  split_rec !! document_text_property (config st2) = Some text →
  get_embeddings text (openai_api_key (config st2)) "text-embedding-ada-002" st2
  = (Raise e, st3) →
  (∀ msg, e ≠ RateLimitError msg) →
  map_record_message message_dict st = ((outs, Raise e), st3)
  ∧ length outs = i.
Proof.
  intros Hrecord Hsplit Hi Hbefore Htext Hcall Hother. split.
  - unfold map_record_message, for_in. unfold_monad. cbn.
    rewrite Hrecord, Hsplit.
    rewrite <- (take_drop_middle recs i split_rec Hi).
    rewrite for_each_app, Hbefore.
    cbn [for_each]. unfold gbind. rewrite emit_eq.
    rewrite (embed_other_error _ _ _ _ _ Htext Hcall Hother).
    by rewrite app_nil_r.
  - rewrite (for_each_emit_length _ _ _ _ _ Hbefore).
    apply length_take_le. apply lookup_lt_Some in Hi. lia.
Qed.

(** The requests of a loop that ran to its end, over the numbered copies of
    a record: one per segment, for the segment's text, in order. *)
Lemma for_each_emit_requests (message_dict record : gmap string json)
    (cfg : Config) (segments : list Document) :
  ∀ (f : nat → Document → gmap string json)
    (outs : list (gmap string json)) (st st' : State),
    (∀ i segment, f i segment = new_record cfg record i segment
                  ∨ ∃ j, f i segment = new_record cfg record j segment) →
    document_text_property (config st) = document_text_property cfg →
    for_each (imap f segments) (emit message_dict) st = ((outs, Ok tt), st') →
    requests st'
    = requests st
      ++ ((λ segment, request_for (page_content segment)
                        (openai_api_key (config st)) "text-embedding-ada-002")
            <$> segments).
Proof.
  induction segments as [|segment segments IH]; intros f outs st st' Hf Htp.
  - cbn. intros [= <- <-]. by rewrite app_nil_r.
  - cbn [imap for_each]. unfold gbind. rewrite emit_eq.
    pose proof (embed_config (f 0 segment) st) as Hcfg.
    destruct (embed (f 0 segment) st) as [[vector|e] st1] eqn:Hembed;
      [|discriminate].
    cbn in Hcfg.
    destruct (for_each (imap (f ∘ S) segments) (emit message_dict) st1)
      as [[outs' r'] st2] eqn:Hrest.
    intros [= <- -> <-].
    destruct (embed_Ok_inv _ _ _ _ Hembed) as (text & _ & Htext & _ & _ & Hst1).
    assert (text = page_content segment) as ->.
    { rewrite Htp in Htext.
      destruct (Hf 0 segment) as [Heq|[j Heq]]; rewrite Heq in Htext;
        by apply new_record_text in Htext. }
    assert (∀ i s, (f ∘ S) i s = new_record cfg record i s
                   ∨ ∃ j, (f ∘ S) i s = new_record cfg record j s) as Hf'.
    { intros i s. right. cbn. destruct (Hf (S i) s) as [->|[j ->]]; eauto. }
    rewrite <- Hcfg in Htp.
    rewrite (IH (f ∘ S) outs' st1 st2 Hf' Htp Hrest), Hcfg, Hst1.
    cbn. by rewrite <- app_assoc.
Qed.

(** X12: a run of [map_record_message] that ends without an exception has
    made exactly one embedding request per segment, in segment order, each
    for that segment's text (newlines replaced), with the configured key and
    the model [text-embedding-ada-002]; and it has emitted one message per
    segment. *)
Theorem one_request_per_segment
    (message_dict record : gmap string json) (segments : list Document)
    (outs : list (gmap string json)) (st st1 st2 : State) :
  message_dict !! "record" = Some (JObj record) →
  split_record_segments record st = (Ok (Some segments), st1) →
  map_record_message message_dict st = ((outs, Ok tt), st2) →
  requests st2
  = requests st
    ++ ((λ segment, request_for (page_content segment)
                      (openai_api_key (config st)) "text-embedding-ada-002")
          <$> segments)
  ∧ length outs = length segments.
Proof.
  intros Hrecord Hsegments Hrun.
  rewrite (map_record_message_eq _ _ _ Hrecord), split_record_eq, Hsegments in Hrun.
  destruct (split_record_segments_state record st) as (Hreq & _ & Htp & Hmp & Hkey & _).
  rewrite Hsegments in Hreq, Htp, Hmp, Hkey. cbn in Hreq, Htp, Hmp, Hkey.
  destruct (for_each _ (emit message_dict) st1) as [[outs' r'] st2'] eqn:Hloop.
  destruct r' as [[]|e]; [|discriminate].
  injection Hrun as [= -> ->].
  split.
  - rewrite <- Hreq, <- Hkey.
    eapply for_each_emit_requests; [| |exact Hloop]; [by left|done].
  - rewrite (for_each_emit_length _ _ _ _ _ Hloop). apply length_imap.
Qed.

(** X15: when the text property is [segment_number], the text field of
    every split record holds the segment's number, not its text; with at
    least one segment, [map_record_message] then raises AttributeError at the
    first one, having emitted nothing and sent nothing. *)
Theorem text_in_segment_number_AttributeError
    (message_dict record : gmap string json) (segment : Document)
    (segments : list Document) (st st1 : State) :
  message_dict !! "record" = Some (JObj record) →
  split_record_segments record st = (Ok (Some (segment :: segments)), st1) →
  document_text_property (config st) = "segment_number" →
  map_record_message message_dict st = (([], Raise AttributeError), st1)
  ∧ requests st1 = requests st.
Proof.
  intros Hrecord Hsegments Heq.
  pose proof (split_record_segments_state record st) as (Hreq & _).
  rewrite Hsegments in Hreq. split; [|exact Hreq]. clear Hreq.
  rewrite (map_record_message_eq _ _ _ Hrecord), split_record_eq, Hsegments.
  destruct (split_record_segments_state record st) as (_ & _ & Htp & Hmp & _).
  rewrite Hsegments in Htp, Hmp. cbn in Htp, Hmp.
  cbn [imap for_each]. unfold gbind. rewrite emit_eq.
  assert (embed (new_record (config st1) record 0 segment) st1
          = (Raise AttributeError, st1)) as ->; [|reflexivity].
  unfold embed, except_RateLimitError. unfold_monad. cbn.
  unfold new_record. rewrite Htp, Hmp.
  rewrite Heq. by rewrite lookup_insert_eq.
Qed.

(** *** What the methods leave alone *)

Lemma embed_environ (split_rec : gmap string json) (st : State) :
  environ (embed split_rec st).2 = environ st.
Proof.
  unfold embed, except_RateLimitError. unfold_monad. cbn.
  destruct (split_rec !! _) as [text|]; [|reflexivity].
  destruct text; try reflexivity.
  rewrite get_embeddings_eq.
  destruct (Embedding_create _ _) as [response_dict|[]]; try reflexivity.
  by destruct (embedding_of_response response_dict) as [v|[]].
Qed.

Lemma for_each_emit_environ (message_dict : gmap string json)
    (recs : list (gmap string json)) (st : State) :
  environ (for_each recs (emit message_dict) st).2 = environ st.
Proof.
  revert st. induction recs as [|sr recs IH]; intros st; [reflexivity|].
  cbn [for_each]. unfold gbind. rewrite emit_eq.
  pose proof (embed_environ sr st) as Henv.
  destruct (embed sr st) as [[v|e] st1]; cbn in Henv |- *; [|done].
  specialize (IH st1).
  destruct (for_each recs (emit message_dict) st1) as [[ys r] st2].
  cbn in IH |- *. congruence.
Qed.

(** X13: no method writes the process environment, and no method but
    [get_embeddings] (and [map_record_message] through it) makes an
    outbound request: [map_schema_message], [_validate_config] and
    [split_record] leave the request log as it is. *)
Theorem methods_leave_environment_and_requests (st : State) :
  (∀ message_dict,
     environ (map_schema_message message_dict st).2 = environ st
     ∧ requests (map_schema_message message_dict st).2 = requests st)
  ∧ (∀ raise_errors warnings_as_errors,
       environ (_validate_config raise_errors warnings_as_errors st).2 = environ st
       ∧ requests (_validate_config raise_errors warnings_as_errors st).2
         = requests st)
  ∧ (∀ record,
       environ (split_record record st).2 = environ st
       ∧ requests (split_record record st).2 = requests st)
  ∧ (∀ text key model, environ (get_embeddings text key model st).2 = environ st)
  ∧ (∀ message_dict, environ (map_record_message message_dict st).2 = environ st).
Proof.
  split_and!.
  - intros m. by rewrite map_schema_message_state.
  - intros re wae. by rewrite validate_config_state.
  - intros record. rewrite split_record_state.
    by destruct (split_record_segments_state record st) as (? & ? & _).
  - intros text key model. destruct text; try reflexivity.
    by rewrite get_embeddings_eq.
  - intros message_dict.
    destruct (message_dict !! "record") as [record|] eqn:Hrecord.
    + destruct record as [| | | | | |record];
        try (unfold map_record_message; unfold_monad; cbn;
             by rewrite Hrecord).
      rewrite (map_record_message_eq _ _ _ Hrecord).
      pose proof (split_record_state record st) as Hstate.
      destruct (split_record_segments_state record st) as (_ & Henv & _).
      rewrite <- Hstate in Henv.
      destruct (split_record record st) as [[recs r] st1]. cbn in Henv.
      pose proof (for_each_emit_environ message_dict recs st1) as Hloop.
      destruct (for_each recs (emit message_dict) st1) as [[outs [[]|e]] st2];
        cbn in Hloop |- *; congruence.
    + unfold map_record_message. unfold_monad. cbn. by rewrite Hrecord.
Qed.

(** X14: of the process environment, [_validate_config] reads
    [OPENAI_API_KEY] only: two environments that agree on it give the same
    outcome.  The plugin-specific variable its error message names is not
    consulted. *)
Theorem validate_config_reads_only_OPENAI_API_KEY
    (raise_errors warnings_as_errors : bool) (env : gmap string string)
    (st : State) :
  env !! "OPENAI_API_KEY" = environ st !! "OPENAI_API_KEY" →
  (_validate_config raise_errors warnings_as_errors (set_environ env st)).1
  = (_validate_config raise_errors warnings_as_errors st).1.
Proof.
  intros Hagree. unfold _validate_config. unfold_monad. cbn.
  destruct (super_validate_config _ _ _); [|reflexivity].
  rewrite Hagree. by destruct (_ && _).
Qed.

End GPTEmbeddingMapper.

(** ** The schema message *)

(** C2: for a schema message with property mapping [P] and key-property list
    [K], [map_schema_message] emits exactly one schema message; its property
    mapping [P'] is [P] plus [embeddings] (array of numbers), plus
    [segment_number] (integer), plus the configured metadata property with
    the object type exactly when [P] did not declare it (a declared one keeps
    its descriptor); every other property is as in [P]; its key-property list
    is [K] followed by one [segment_number].  The metadata property is taken
    to be a third name, neither [embeddings] nor [segment_number]. *)
Theorem map_schema_message_adds_properties
    (message_dict : SchemaMessage) (P : gmap string json) (K : list string)
    (st : State) :
  let mp := document_metadata_property (config st) in
  schema message_dict !! "properties" = Some (JObj P) →
  key_properties message_dict = Some K →
  mp ≠ "embeddings" → mp ≠ "segment_number" →
  ∃ P' : gmap string json,
    map_schema_message message_dict st
    = (([{| stream := stream message_dict;
            schema := <["properties" := JObj P']> (schema message_dict);
            key_properties := Some (K ++ ["segment_number"]);
            bookmark_properties := bookmark_properties message_dict |}],
        Ok tt), st)
    ∧ P' !! "embeddings" = Some (th.to_dict (th.ArrayType th.NumberType))
    ∧ P' !! "segment_number" = Some (th.to_dict th.IntegerType)
    ∧ (P !! mp = None → P' !! mp = Some (th.to_dict th.ObjectType))
    ∧ (∀ v, P !! mp = Some v → P' !! mp = Some v)
    ∧ (∀ k, k ≠ "embeddings" → k ≠ "segment_number" → k ≠ mp →
            P' !! k = P !! k)
    ∧ dom P' = dom P ∪ {[ "embeddings"; "segment_number"; mp ]}.
Proof.
  intros mp Hproperties Hkeys Hemb Hseg.
  set (P1 := <["embeddings" := th.to_dict (th.ArrayType th.NumberType)]> P).
  set (P2 := match P1 !! mp with
             | None => <[mp := th.to_dict th.ObjectType]> P1
             | Some _ => P1
             end).
  exists (<["segment_number" := th.to_dict th.IntegerType]> P2).
  assert (P1 !! mp = P !! mp) as HP1 by (unfold P1; by rewrite lookup_insert_ne).
  split_and!.
  - unfold map_schema_message, for_in, super_map_schema_message, yield.
    unfold_monad. cbn. rewrite Hproperties, Hkeys. reflexivity.
  - rewrite lookup_insert_ne by done. unfold P2.
    destruct (P1 !! mp); [|rewrite lookup_insert_ne by done];
      unfold P1; by rewrite lookup_insert_eq.
  - by rewrite lookup_insert_eq.
  - intros Hnone. rewrite lookup_insert_ne by done. unfold P2.
    rewrite HP1, Hnone. by rewrite lookup_insert_eq.
  - intros v Hsome. rewrite lookup_insert_ne by done. unfold P2.
    rewrite HP1, Hsome. by rewrite HP1.
  - intros k Hk1 Hk2 Hk3. rewrite lookup_insert_ne by done. unfold P2.
    destruct (P1 !! mp); [|rewrite lookup_insert_ne by done];
      unfold P1; by rewrite lookup_insert_ne.
  - rewrite dom_insert_L. unfold P2.
    destruct (P1 !! mp) as [v|] eqn:Hmp.
    + assert (mp ∈ dom P) by (apply elem_of_dom; rewrite <- HP1; eauto).
      unfold P1. rewrite dom_insert_L. apply set_eq. intros k.
      rewrite !elem_of_union, !elem_of_singleton.
      intuition (subst; auto).
    + unfold P1. rewrite !dom_insert_L. apply set_eq. intros k.
      rewrite !elem_of_union, !elem_of_singleton. tauto.
Qed.

(** ** The properties at concrete inputs *)

(** A record without the text property, with splitting disabled. *)
Lemma split_record_missing_text_KeyError_witness :
  split_record window_splitter {[ "id" := JInt 7 ]} st_unsplit
  = (([], Raise (KeyError "page_content")), st_unsplit).
Proof.
  apply (split_record_missing_text_KeyError window_splitter
           {[ "id" := JInt 7 ]} st_unsplit).
  reflexivity.
Defined.

(** [split_documents: false] on a record with text: nothing comes out. *)
Lemma split_documents_false_emits_nothing_witness :
  split_record window_splitter (demo_record "hello") st_unsplit
  = (([], Ok (Some (demo_record "hello"))), st_unsplit)
  ∧ map_record_message window_splitter always_answers (demo_message "hello") st_unsplit
    = (([], Ok tt), st_unsplit).
Proof.
  apply (split_documents_false_emits_nothing window_splitter always_answers
           (demo_message "hello") (demo_record "hello") (JBool false) st_unsplit).
  - reflexivity.
  - exists (JStr "hello"). reflexivity.
  - reflexivity.
  - reflexivity.
Defined.

(** The empty text has no window. *)
Lemma no_segments_no_output_witness :
  map_record_message window_splitter always_answers (demo_message "") st_default
  = (([], Ok tt), st_default)
  ∧ requests st_default = requests st_default.
Proof.
  apply (no_segments_no_output window_splitter always_answers
           (demo_message "") (demo_record "") st_default st_default None).
  - reflexivity.
  - reflexivity.
Defined.

(** Three windows; the service rate-limits the second request: the first
    window's message is out, then the sync aborts. *)
Lemma rate_limit_aborts_sync_witness :
  map_record_message window_splitter limited_after_one
    (demo_message "abcdefghij") st_windows
  = (([window_output 0 "abcd" (JList [JFloat 0.5%float])],
      Raise (AbortedSyncFailedException (abort_prefix +:+ "slow down"))),
     windows_state ["abcd"; "efgh"])
  ∧ length [window_output 0 "abcd" (JList [JFloat 0.5%float])] = 1.
Proof.
  apply (rate_limit_aborts_sync window_splitter limited_after_one
           (demo_message "abcdefghij") (demo_record "abcdefghij")
           [window_record 0 "abcd"; window_record 1 "efgh"; window_record 2 "ij"]
           (Ok None) 1 (window_record 1 "efgh")
           [window_output 0 "abcd" (JList [JFloat 0.5%float])]
           (JStr "efgh") "slow down"
           st_windows (windows_state []) (windows_state ["abcd"])
           (windows_state ["abcd"; "efgh"])).
  - reflexivity.
  - reflexivity.
  - reflexivity.
  - reflexivity.
  - reflexivity.
  - reflexivity.
Defined.

(** Three windows, every request answered: three output records. *)
Lemma output_record_fields_witness :
  let outs := [window_output 0 "abcd" demo_vector;
               window_output 1 "efgh" demo_vector;
               window_output 2 "ij" demo_vector] in
  let segments := [window_segment "abcd"; window_segment "efgh"; window_segment "ij"] in
  (answers always_answers → Ok tt = Ok tt)
  ∧ (Ok tt = Ok tt → length outs = length segments)
  ∧ ∀ i out, outs !! i = Some out →
      ∃ segment vector out_record history response_dict,
        segments !! i = Some segment
        ∧ out = <["record" := JObj out_record]> (demo_message "abcdefghij")
        ∧ out_record !! "page_content" = Some (JStr (page_content segment))
        ∧ out_record !! "metadata" = Some (JObj (metadata segment))
        ∧ out_record !! "segment_number" = Some (JInt (Z.of_nat i))
        ∧ out_record !! "embeddings" = Some vector
        ∧ always_answers history
            (request_for (page_content segment) (Some "sk")
               "text-embedding-ada-002") = Ok response_dict
        ∧ embedding_of_response response_dict = Ok vector
        ∧ ∀ k, k ≠ "page_content" → k ≠ "metadata" →
               k ≠ "segment_number" → k ≠ "embeddings" →
               out_record !! k = demo_record "abcdefghij" !! k.
Proof.
  exact (output_record_fields window_splitter always_answers
           (demo_message "abcdefghij") (demo_record "abcdefghij")
           [window_segment "abcd"; window_segment "efgh"; window_segment "ij"]
           [window_output 0 "abcd" demo_vector;
            window_output 1 "efgh" demo_vector;
            window_output 2 "ij" demo_vector]
           (Ok tt) st_windows (windows_state [])
           (windows_state ["abcd"; "efgh"; "ij"])
           ltac:(discriminate) ltac:(discriminate) ltac:(discriminate)
           ltac:(discriminate) ltac:(discriminate)
           eq_refl eq_refl eq_refl).
Defined.

(** A schema that declares [id] only, under the default configuration. *)
Lemma map_schema_message_adds_properties_witness :
  ∃ P' : gmap string json,
    map_schema_message (demo_schema {[ "id" := th.to_dict th.IntegerType ]}) st_default
    = (([{| stream := "docs";
            schema := <["properties" := JObj P']>
                        (schema (demo_schema {[ "id" := th.to_dict th.IntegerType ]}));
            key_properties := Some (["id"] ++ ["segment_number"]);
            bookmark_properties := None |}],
        Ok tt), st_default)
    ∧ P' !! "embeddings" = Some (th.to_dict (th.ArrayType th.NumberType))
    ∧ P' !! "segment_number" = Some (th.to_dict th.IntegerType)
    ∧ (({[ "id" := th.to_dict th.IntegerType ]} : gmap string json) !! "metadata" = None
       → P' !! "metadata" = Some (th.to_dict th.ObjectType))
    ∧ (∀ v, ({[ "id" := th.to_dict th.IntegerType ]} : gmap string json) !! "metadata" = Some v
            → P' !! "metadata" = Some v)
    ∧ (∀ k, k ≠ "embeddings" → k ≠ "segment_number" → k ≠ "metadata" →
            P' !! k = ({[ "id" := th.to_dict th.IntegerType ]} : gmap string json) !! k)
    ∧ dom P' = dom ({[ "id" := th.to_dict th.IntegerType ]} : gmap string json)
               ∪ {[ "embeddings"; "segment_number"; "metadata" ]}.
Proof.
  exact (map_schema_message_adds_properties
           (demo_schema {[ "id" := th.to_dict th.IntegerType ]})
           {[ "id" := th.to_dict th.IntegerType ]} ["id"] st_default
           eq_refl eq_refl ltac:(discriminate) ltac:(discriminate)).
Defined.

(** No key in the configuration, none in the environment, strict validation. *)
Lemma validate_config_raises_iff_witness :
  ((∃ e, (_validate_config accept true false st_no_key).1 = Raise e)
   ↔ true = true
     ∧ openai_api_key (config st_no_key) = None
     ∧ environ st_no_key !! "OPENAI_API_KEY" = None)
  ∧ (∀ e, (_validate_config accept true false st_no_key).1 = Raise e →
          e = ConfigValidationError credential_message)
  ∧ credential_message
    = "Must set at least one of the following: `openai_api_key` setting, `MAP_OPENAI_EMBEDDINGS_OPEN_API_KEY` env var, or  `OPENAI_API_KEY` env var.".
Proof.
  exact (validate_config_raises_iff accept true false st_no_key ([], []) eq_refl).
Defined.

(** Validation that does not raise errors returns no report at all. *)
Lemma validate_config_returns_None_witness :
  _validate_config accept false false st_no_key = (Ok None, st_no_key).
Proof.
  exact (validate_config_returns_None accept false st_no_key ([], []) eq_refl).
Defined.

(** C7 as stated fails: with [openai_api_key] set, a configuration that
    the framework's validation rejects makes [_validate_config] raise a
    ConfigValidationError all the same, and not the one about credentials. *)
Lemma validate_config_raises_with_key_present :
  openai_api_key (config st_default) = Some "sk"
  ∧ _validate_config rejecting true false st_default
    = (Raise (ConfigValidationError
                "Config validation failed: 5 is not of type 'string'"),
       st_default)
  ∧ ¬ ((∃ e, (_validate_config rejecting true false st_default).1 = Raise e)
       ↔ true = true
         ∧ openai_api_key (config st_default) = None
         ∧ environ st_default !! "OPENAI_API_KEY" = None).
Proof.
  split_and!; [reflexivity|reflexivity|].
  intros [Honly_if _].
  destruct Honly_if as (_ & Hkey & _); [by eexists|discriminate Hkey].
Qed.

(** C8 as stated fails: with an empty [splitter_config] object in the
    configuration, one [split_record] call leaves the chunker's defaults
    written into it. *)
Lemma split_record_writes_splitter_config :
  let st' := (split_record window_splitter (demo_record "hello") st_empty_splitter).2 in
  splitter_config (config st_empty_splitter) = Some (JObj ∅)
  ∧ splitter_config (config st')
    = Some (JObj (<["chunk_size" := JInt 1000]> {[ "chunk_overlap" := JInt 200 ]}))
  ∧ config st' ≠ config st_empty_splitter.
Proof.
  cbn zeta. split_and!; [reflexivity|reflexivity|].
  intros Hsame.
  apply (f_equal (λ c, match splitter_config c with
                       | Some (JObj d) => d !! "chunk_size"
                       | _ => None
                       end)) in Hsame.
  vm_compute in Hsame. discriminate Hsame.
Qed.

(** ** Further properties of the schema message *)

(** The property mapping [map_schema_message] writes, from the one it reads. *)
Definition schema_properties (metadata_property : string)
    (P : gmap string json) : gmap string json :=
  let P1 := <["embeddings" := th.to_dict (th.ArrayType th.NumberType)]> P in
  let P2 := match P1 !! metadata_property with
            | None => <[metadata_property := th.to_dict th.ObjectType]> P1
            | Some _ => P1
            end in
  <["segment_number" := th.to_dict th.IntegerType]> P2.

Lemma map_schema_message_eq (message_dict : SchemaMessage)
    (P : gmap string json) (K : list string) (st : State) :
  schema message_dict !! "properties" = Some (JObj P) →
  key_properties message_dict = Some K →
  map_schema_message message_dict st
  = (([{| stream := stream message_dict;
          schema := <["properties" :=
                        JObj (schema_properties
                                (document_metadata_property (config st)) P)]>
                      (schema message_dict);
          key_properties := Some (K ++ ["segment_number"]);
          bookmark_properties := bookmark_properties message_dict |}],
      Ok tt), st).
Proof.
  intros Hproperties Hkeys.
  unfold map_schema_message, for_in, super_map_schema_message, yield.
  unfold_monad. cbn. by rewrite Hproperties, Hkeys.
Qed.

(** Writing the three properties again changes nothing. *)
Lemma schema_properties_idemp (mp : string) (P : gmap string json) :
  schema_properties mp (schema_properties mp P) = schema_properties mp P.
Proof.
  unfold schema_properties. cbn zeta.
  set (P1 := <["embeddings" := th.to_dict (th.ArrayType th.NumberType)]> P).
  set (P2 := match P1 !! mp with
             | None => <[mp := th.to_dict th.ObjectType]> P1
             | Some _ => P1
             end).
  set (P3 := <["segment_number" := th.to_dict th.IntegerType]> P2).
  assert (P2 !! "embeddings" = Some (th.to_dict (th.ArrayType th.NumberType)))
    as Hemb.
  { unfold P2. destruct (P1 !! mp) eqn:Hmp.
    - unfold P1. by rewrite lookup_insert_eq.
    - destruct (decide (mp = "embeddings")) as [->|Hne].
      + unfold P1 in Hmp. by rewrite lookup_insert_eq in Hmp.
      + rewrite lookup_insert_ne by done. unfold P1. by rewrite lookup_insert_eq. }
  assert (is_Some (P2 !! mp)) as [v Hmp2].
  { unfold P2. destruct (P1 !! mp) eqn:Hmp; [by rewrite Hmp|].
    by rewrite lookup_insert_eq. }
  assert (<["embeddings" := th.to_dict (th.ArrayType th.NumberType)]> P3 = P3)
    as ->.
  { apply insert_id. unfold P3. by rewrite lookup_insert_ne. }
  assert (is_Some (P3 !! mp)) as [v' ->].
  { unfold P3. destruct (decide (mp = "segment_number")) as [->|Hne].
    - by rewrite lookup_insert_eq.
    - rewrite lookup_insert_ne by done. by rewrite Hmp2. }
  unfold P3. by rewrite insert_insert_eq.
Qed.

(** X1: running the schema transform on its own output (a schema message
    seen twice) leaves the property mapping, and the whole schema, as the
    first run made it, for every configuration; the key-property list is
    not guarded: it ends with [segment_number] twice. *)
Theorem map_schema_message_twice
    (message_dict : SchemaMessage) (P : gmap string json) (K : list string)
    (st : State) :
  schema message_dict !! "properties" = Some (JObj P) →
  key_properties message_dict = Some K →
  ∃ once twice,
    map_schema_message message_dict st = (([once], Ok tt), st)
    ∧ map_schema_message once st = (([twice], Ok tt), st)
    ∧ schema twice = schema once
    ∧ key_properties once = Some (K ++ ["segment_number"])
    ∧ key_properties twice = Some (K ++ ["segment_number"; "segment_number"]).
Proof.
  intros Hproperties Hkeys.
  eexists _, _. split; [exact (map_schema_message_eq _ _ _ _ Hproperties Hkeys)|].
  split; [apply map_schema_message_eq; cbn; [apply lookup_insert_eq|reflexivity]|].
  cbn. split_and!; [|reflexivity|by rewrite <- app_assoc].
  by rewrite schema_properties_idemp, insert_insert_eq.
Qed.

(** X2: [map_schema_message] emits a message exactly when the schema has a
    ["properties"] entry that is an object and the message has a key-property
    list.  In every other case it emits nothing and raises, and the exception
    tells the cause: KeyError for ["properties"] exactly when the schema has no
    such entry, TypeError exactly when the entry is no object, AttributeError
    exactly when the entry is an object and there is no key-property list. *)
Theorem map_schema_message_emits_iff (message_dict : SchemaMessage) (st : State) :
  let outcome := (map_schema_message message_dict st).1 in
  ((∃ out, outcome = ([out], Ok tt))
   ↔ ∃ P K, schema message_dict !! "properties" = Some (JObj P)
            ∧ key_properties message_dict = Some K)
  ∧ (outcome = ([], Raise (KeyError "properties"))
     ↔ schema message_dict !! "properties" = None)
  ∧ (outcome = ([], Raise TypeError)
     ↔ ∃ v, schema message_dict !! "properties" = Some v ∧ ∀ P, v ≠ JObj P)
  ∧ (outcome = ([], Raise AttributeError)
     ↔ (∃ P, schema message_dict !! "properties" = Some (JObj P))
       ∧ key_properties message_dict = None)
  ∧ ((∃ out, outcome = ([out], Ok tt)) ∨ ∃ e, outcome = ([], Raise e))
  ∧ ∀ e, outcome.2 = Raise e →
         outcome.1 = []
         ∧ (e = KeyError "properties" ∨ e = TypeError ∨ e = AttributeError).
Proof.
  cbn zeta.
  unfold map_schema_message, for_in, super_map_schema_message, yield.
  unfold_monad. cbn.
  destruct (schema message_dict !! "properties") as [v|] eqn:HP; cbn;
    [destruct (key_properties message_dict) as [K|] eqn:HK;
     destruct v as [| | | | | |P]; cbn|];
    split_and!; try naive_solver.
Qed.

(** ** The further properties at concrete inputs *)

Lemma split_record_yields_numbered_witness :
  ∃ recs,
    split_record window_splitter (demo_record "abcdefghij") st_windows
    = ((recs, Ok None), windows_state [])
    ∧ length recs = length [window_segment "abcd"; window_segment "efgh";
                            window_segment "ij"]
    ∧ ∀ i rec, recs !! i = Some rec →
        rec !! "segment_number" = Some (JInt (Z.of_nat i))
        ∧ dom rec = dom (demo_record "abcdefghij")
                    ∪ {[ "page_content"; "metadata"; "segment_number" ]}.
Proof.
  exact (split_record_yields_numbered window_splitter
           (demo_record "abcdefghij")
           [window_segment "abcd"; window_segment "efgh"; window_segment "ij"]
           st_windows (windows_state []) eq_refl).
Defined.

Lemma splitter_config_entries_reach_chunker_witness :
  ∃ kwargs : gmap string json,
    (split_record window_splitter (demo_record "abcdefghij") st_windows).1
    = match window_splitter kwargs (JStr "abcdefghij")
              (default (JObj ∅) (demo_record "abcdefghij" !! "metadata")) with
      | Ok document_segments =>
          (imap (new_record (config st_windows) (demo_record "abcdefghij"))
             document_segments, Ok None)
      | Raise e => ([], Raise e)
      end
    ∧ splitter_config
        (config (split_record window_splitter (demo_record "abcdefghij")
                   st_windows).2)
      = Some (JObj kwargs)
    ∧ (∀ k v, ({[ "chunk_size" := JInt 4 ]} : gmap string json) !! k = Some v
              → kwargs !! k = Some v)
    ∧ (({[ "chunk_size" := JInt 4 ]} : gmap string json) !! "chunk_size" = None
       → kwargs !! "chunk_size" = Some (JInt 1000))
    ∧ (({[ "chunk_size" := JInt 4 ]} : gmap string json) !! "chunk_overlap" = None
       → kwargs !! "chunk_overlap" = Some (JInt 200))
    ∧ dom kwargs = dom ({[ "chunk_size" := JInt 4 ]} : gmap string json)
                   ∪ {[ "chunk_size"; "chunk_overlap" ]}.
Proof.
  exact (splitter_config_entries_reach_chunker window_splitter
           (demo_record "abcdefghij") (JStr "abcdefghij")
           {[ "chunk_size" := JInt 4 ]} st_windows eq_refl eq_refl eq_refl).
Defined.

Lemma default_chunker_arguments_witness :
  split_record window_splitter (demo_record "hello") st_default
  = (match window_splitter
             (<["chunk_size" := JInt 1000]> {[ "chunk_overlap" := JInt 200 ]})
             (JStr "hello")
             (default (JObj ∅) (demo_record "hello" !! "metadata")) with
     | Ok document_segments =>
         (imap (new_record (config st_default) (demo_record "hello"))
            document_segments, Ok None)
     | Raise e => ([], Raise e)
     end, st_default).
Proof.
  exact (default_chunker_arguments window_splitter (demo_record "hello")
           (JStr "hello") st_default eq_refl eq_refl eq_refl).
Defined.

Lemma splitter_config_not_object_TypeError_witness :
  split_record window_splitter (demo_record "hello")
    (demo_state (demo_config None (Some (JList [JStr "chunk_size"])) None))
  = (([], Raise TypeError),
     demo_state (demo_config None (Some (JList [JStr "chunk_size"])) None)).
Proof.
  apply (splitter_config_not_object_TypeError window_splitter
           (demo_record "hello") (JList [JStr "chunk_size"])).
  - by exists (JStr "hello").
  - reflexivity.
  - reflexivity.
  - discriminate.
Defined.

(** The record has no text field: the KeyError of [split_record] is what
    [map_record_message] raises. *)
Lemma split_record_error_propagates_witness :
  ([] : list (gmap string json)) = []
  ∧ map_record_message window_splitter always_answers
      {[ "record" := JObj {[ "id" := JInt 7 ]} ]} st_default
    = (([], Raise (KeyError "page_content")), st_default)
  ∧ requests st_default = requests st_default.
Proof.
  exact (split_record_error_propagates window_splitter always_answers
           {[ "record" := JObj {[ "id" := JInt 7 ]} ]} {[ "id" := JInt 7 ]}
           [] (KeyError "page_content") st_default st_default
           eq_refl eq_refl).
Defined.

(** A response of the documented shape, with a second data entry, to a text
    with a newline. *)
Lemma get_embeddings_returns_first_embedding_witness :
  get_embeddings (λ _ _, Ok documented_response)
    (JStr (String "a" (String newline "b"))) (Some "sk")
    "text-embedding-ada-002" st_default
  = (Ok demo_vector,
     sent (request_for (String "a" (String newline "b")) (Some "sk")
             "text-embedding-ada-002") st_default).
Proof.
  apply (get_embeddings_returns_first_embedding (λ _ _, Ok documented_response)).
  split; [reflexivity|].
  eexists _, _, _. split_and!; reflexivity.
Defined.

Lemma get_embeddings_not_str_AttributeError_witness :
  get_embeddings always_answers (JInt 3) (Some "sk") "text-embedding-ada-002"
    st_default
  = (Raise AttributeError, st_default).
Proof.
  apply (get_embeddings_not_str_AttributeError always_answers (JInt 3)).
  discriminate.
Defined.

Lemma get_embeddings_sends_newline_free_text_verbatim_witness :
  requests (get_embeddings always_answers (JStr "hi") None "m" st_default).2
  = requests st_default ++ [{| input := ["hi"]; model := "m"; api_key := None |}].
Proof.
  apply (get_embeddings_sends_newline_free_text_verbatim always_answers "hi").
  intros [|[|[|i]]]; discriminate.
Defined.

Lemma map_record_message_missing_record_KeyError_witness :
  map_record_message window_splitter always_answers
    {[ "stream" := JStr "docs" ]} st_default
  = (([], Raise (KeyError "record")), st_default).
Proof.
  exact (map_record_message_missing_record_KeyError window_splitter
           always_answers {[ "stream" := JStr "docs" ]} st_default eq_refl).
Defined.

(** Three windows; the second request fails in transport: the exception
    comes out as it is, after the first window's message. *)
Lemma other_errors_propagate_unchanged_witness :
  map_record_message window_splitter fails_after_one
    (demo_message "abcdefghij") st_windows
  = (([window_output 0 "abcd" (JList [JFloat 0.5%float])],
      Raise (OtherError "APIConnectionError" "connection reset")),
     windows_state ["abcd"; "efgh"])
  ∧ length [window_output 0 "abcd" (JList [JFloat 0.5%float])] = 1.
Proof.
  apply (other_errors_propagate_unchanged window_splitter fails_after_one
           (demo_message "abcdefghij") (demo_record "abcdefghij")
           [window_record 0 "abcd"; window_record 1 "efgh"; window_record 2 "ij"]
           (Ok None) 1 (window_record 1 "efgh")
           [window_output 0 "abcd" (JList [JFloat 0.5%float])]
           (JStr "efgh") (OtherError "APIConnectionError" "connection reset")
           st_windows (windows_state []) (windows_state ["abcd"])
           (windows_state ["abcd"; "efgh"])); try reflexivity.
  discriminate.
Defined.

Lemma one_request_per_segment_witness :
  requests (windows_state ["abcd"; "efgh"; "ij"])
  = requests st_windows
    ++ ((λ segment, request_for (page_content segment)
                      (openai_api_key (config st_windows))
                      "text-embedding-ada-002")
          <$> [window_segment "abcd"; window_segment "efgh"; window_segment "ij"])
  ∧ length [window_output 0 "abcd" demo_vector;
            window_output 1 "efgh" demo_vector;
            window_output 2 "ij" demo_vector]
    = length [window_segment "abcd"; window_segment "efgh"; window_segment "ij"].
Proof.
  exact (one_request_per_segment window_splitter always_answers
           (demo_message "abcdefghij") (demo_record "abcdefghij")
           [window_segment "abcd"; window_segment "efgh"; window_segment "ij"]
           [window_output 0 "abcd" demo_vector;
            window_output 1 "efgh" demo_vector;
            window_output 2 "ij" demo_vector]
           st_windows (windows_state []) (windows_state ["abcd"; "efgh"; "ij"])
           eq_refl eq_refl eq_refl).
Defined.

(** The text lives in a field named [segment_number]. *)
Lemma text_in_segment_number_AttributeError_witness :
  map_record_message window_splitter always_answers
    {[ "record" := JObj {[ "segment_number" := JStr "abcdefghij" ]} ]}
    (text_in_segment_number {[ "chunk_size" := JInt 4 ]})
  = (([], Raise AttributeError),
     text_in_segment_number
       (<["chunk_overlap" := JInt 200]> {[ "chunk_size" := JInt 4 ]}))
  ∧ requests (text_in_segment_number
                (<["chunk_overlap" := JInt 200]> {[ "chunk_size" := JInt 4 ]}))
    = requests (text_in_segment_number {[ "chunk_size" := JInt 4 ]}).
Proof.
  exact (text_in_segment_number_AttributeError window_splitter always_answers
           {[ "record" := JObj {[ "segment_number" := JStr "abcdefghij" ]} ]}
           {[ "segment_number" := JStr "abcdefghij" ]}
           {| page_content := "abcd"; metadata := ∅ |}
           [{| page_content := "efgh"; metadata := ∅ |};
            {| page_content := "ij"; metadata := ∅ |}]
           (text_in_segment_number {[ "chunk_size" := JInt 4 ]})
           (text_in_segment_number
              (<["chunk_overlap" := JInt 200]> {[ "chunk_size" := JInt 4 ]}))
           eq_refl eq_refl eq_refl).
Defined.

(** Setting the plugin-specific variable of the message changes nothing. *)
Lemma validate_config_reads_only_OPENAI_API_KEY_witness :
  (_validate_config accept true false
     (set_environ plugin_variable_only st_no_key)).1
  = (_validate_config accept true false st_no_key).1.
Proof.
  exact (validate_config_reads_only_OPENAI_API_KEY accept true false
           plugin_variable_only st_no_key eq_refl).
Defined.

(** A schema that declares [id] only, seen twice. *)
Lemma map_schema_message_twice_witness :
  ∃ once twice,
    map_schema_message (demo_schema {[ "id" := th.to_dict th.IntegerType ]})
      st_default
    = (([once], Ok tt), st_default)
    ∧ map_schema_message once st_default = (([twice], Ok tt), st_default)
    ∧ schema twice = schema once
    ∧ key_properties once = Some (["id"] ++ ["segment_number"])
    ∧ key_properties twice
      = Some (["id"] ++ ["segment_number"; "segment_number"]).
Proof.
  exact (map_schema_message_twice
           (demo_schema {[ "id" := th.to_dict th.IntegerType ]})
           {[ "id" := th.to_dict th.IntegerType ]} ["id"] st_default
           eq_refl eq_refl).
Defined.
